(** * Food Delivery API: cart and order handlers of [main.py]

    A shallow embedding of the request handlers of [src/main.py] over the
    record types of [src/schemas.py].  The MongoDB database handle [db] is an
    explicit state threaded through a small state-and-exception monad; an
    [HTTPException] raised by a handler is the monad's failure. *)

From Stdlib Require Import ZArith NArith List String Ascii Bool Lia.
From Corelib Require Import PrimFloat.
From Stdlib Require Import Permutation Sorted.
Import ListNotations.

Open Scope string_scope.
Open Scope list_scope.
Open Scope Z_scope.

(** ** bson.ObjectId

    The constructor [ObjectId(id_str)] on a [str] takes a string of 24
    characters that [bytes.fromhex] can read, and raises on every other
    string.  [bytes.fromhex] reads pairs of hexadecimal digits and skips
    ASCII whitespace in front of a pair, so besides the strings of 24 digits,
    which spell 12 bytes, the constructor lets through strings of 24
    characters that spell fewer bytes.

    A 12-byte identifier is kept as the number its bytes spell, below
    [2 ^ 96].  An identifier of [k < 12] bytes equals no 12-byte one and no
    identifier of another length; it is kept above, at
    [(k + 1) * 2 ^ 96] plus the number its bytes spell.  [str] prints the 24
    lower-case digits of a 12-byte identifier. *)
Module ObjectId.

Definition t := N.

Definition hex_digit (c : ascii) : option N :=
  let n := N_of_ascii c in
  if ((48 <=? n) && (n <=? 57))%N then Some (n - 48)%N
  else if ((97 <=? n) && (n <=? 102))%N then Some (n - 87)%N
  else if ((65 <=? n) && (n <=? 70))%N then Some (n - 55)%N
  else None.

(** Space, tab, line feed, vertical tab, form feed, carriage return. *)
Definition is_space (c : ascii) : bool :=
  let n := N_of_ascii c in
  (n =? 32)%N || ((9 <=? n) && (n <=? 13))%N.

(** [bytes.fromhex]: the bytes a string spells, or [None] where Python
    raises [ValueError]. *)
Fixpoint fromhex (s : string) : option (list N) :=
  match s with
  | EmptyString => Some []
  | String c rest =>
      if is_space c then fromhex rest
      else
        match hex_digit c, rest with
        | Some hi, String c2 rest2 =>
            match hex_digit c2 with
            | Some lo => option_map (cons (16 * hi + lo)%N) (fromhex rest2)
            | None => None
            end
        | _, _ => None
        end
  end.

(** The number that bytes spell, most significant first. *)
Definition value (bytes : list N) : N :=
  fold_left (fun acc b => (256 * acc + b)%N) bytes 0%N.

Definition of_bytes (bytes : list N) : t :=
  if (List.length bytes =? 12)%nat then value bytes
  else (N.of_nat (S (List.length bytes)) * 2 ^ 96 + value bytes)%N.

Definition parse (id_str : string) : option t :=
  if (String.length id_str =? 24)%nat then
    option_map of_bytes (fromhex id_str)
  else None.

Definition digit_char (d : N) : ascii :=
  if (d <? 10)%N then ascii_of_N (48 + d) else ascii_of_N (87 + d).

Fixpoint hexlify (digits : nat) (v : N) (acc : string) : string :=
  match digits with
  | O => acc
  | S k => hexlify k (v / 16)%N (String (digit_char (v mod 16)%N) acc)
  end.

Definition str (oid : t) : string := hexlify 24 oid EmptyString.

(** The [k] low bytes of a number, most significant first. *)
Fixpoint bytes_of (k : nat) (v : N) : list N :=
  match k with
  | O => []
  | S k' => bytes_of k' (v / 256)%N ++ [(v mod 256)%N]
  end.

Definition eqb (a b : t) : bool := N.eqb a b.

End ObjectId.

(** ** schemas.py *)

Module Restaurant.
Record t := mk {
  name : string;
  cuisine : string;
  image_url : option string;
  rating : float;
  delivery_time_min : Z;
  delivery_fee : float;
  address : option string
}.
End Restaurant.

Module MenuItem.
Record t := mk {
  restaurant_id : string;
  name : string;
  description : option string;
  price : float;
  image_url : option string;
  is_veg : bool;
  spicy_level : Z
}.
End MenuItem.

Module CartItem.
Record t := mk {
  restaurant_id : string;
  menu_item_id : string;
  name : string;
  price : float;
  quantity : Z  (* Field(1, ge=1) *)
}.
End CartItem.

Module Order.
Record t := mk {
  user_id : string;
  restaurant_id : string;
  items : list CartItem.t;
  total : float;
  status : string;
  address : string
}.
End Order.

(** ** Documents and the database *)

(** A document written by [create_document]: the dumped fields of the model,
    the [_id] the store assigned and the creation time. A missing or null
    [created_at] is [None]. *)
Record Document (A : Type) := mkDocument {
  _id : ObjectId.t;
  data : A;
  created_at : option Z
}.
Arguments mkDocument {A}.
Arguments _id {A}.
Arguments data {A}.
Arguments created_at {A}.

(** A document of the [cart] collection.  [get_cart] writes the keys
    [created_at] and [updated_at] with the value [None] ([Some None] here);
    the upsert of [add_to_cart] writes neither key ([None] here). *)
Module CartDoc.
Record t := mk {
  _id : ObjectId.t;
  user_id : string;
  items : list CartItem.t;
  created_at : option (option Z);
  updated_at : option (option Z)
}.

Definition set_items (l : list CartItem.t) (c : t) : t :=
  mk (_id c) (user_id c) l (created_at c) (updated_at c).

Definition push_item (item : CartItem.t) (c : t) : t :=
  set_items (items c ++ [item]) c.
End CartDoc.

(** The handle [db]: the four collections in natural (insertion) order, the
    generator of fresh [ObjectId]s and the clock of the store. *)
Record Database := mkDatabase {
  restaurant : list (Document Restaurant.t);
  menuitem : list (Document MenuItem.t);
  cart : list CartDoc.t;
  order : list (Document Order.t);
  next_oid : N;
  clock : Z
}.

Definition with_restaurant (l : list (Document Restaurant.t)) (db : Database) :=
  mkDatabase l (menuitem db) (cart db) (order db) (next_oid db) (clock db).
Definition with_menuitem (l : list (Document MenuItem.t)) (db : Database) :=
  mkDatabase (restaurant db) l (cart db) (order db) (next_oid db) (clock db).
Definition with_cart (l : list CartDoc.t) (db : Database) :=
  mkDatabase (restaurant db) (menuitem db) l (order db) (next_oid db) (clock db).
Definition with_order (l : list (Document Order.t)) (db : Database) :=
  mkDatabase (restaurant db) (menuitem db) (cart db) l (next_oid db) (clock db).
Definition with_next_oid (n : N) (db : Database) :=
  mkDatabase (restaurant db) (menuitem db) (cart db) (order db) n (clock db).

(** A collection that [create_document] can write, addressed by its name.
    [open_ints] lists the [int] fields of a record that its schema leaves
    without an upper bound: [delivery_time_min] (5 to 120) and [spicy_level]
    (0 to 3) are bounded by their [Field] constraints, the [quantity] of a
    cart item only from below. *)
Record Collection (A : Type) := mkCollection {
  collection_name : string;
  documents : Database -> list (Document A);
  with_documents : list (Document A) -> Database -> Database;
  open_ints : A -> list Z
}.
Arguments collection_name {A}.
Arguments documents {A}.
Arguments with_documents {A}.
Arguments open_ints {A}.

Definition restaurant_collection : Collection Restaurant.t :=
  mkCollection _ "restaurant" restaurant with_restaurant (fun _ => []).
Definition menuitem_collection : Collection MenuItem.t :=
  mkCollection _ "menuitem" menuitem with_menuitem (fun _ => []).
Definition order_collection : Collection Order.t :=
  mkCollection _ "order" order with_order
    (fun o => map CartItem.quantity (Order.items o)).

(** ** The handler monad: database state and [HTTPException] *)

Record HTTPException := mkHTTPException {
  status_code : Z;
  detail : string
}.

(** An exception other than [HTTPException], which no handler catches. *)
Inductive PythonError := OverflowError.

Inductive Outcome (A : Type) :=
| Return (a : A)
| Raise (e : HTTPException)
| Unhandled (e : PythonError).
Arguments Return {A}.
Arguments Raise {A}.
Arguments Unhandled {A}.

Definition M (A : Type) := Database -> Outcome A * Database.

Definition ret {A} (a : A) : M A := fun db => (Return a, db).

Definition raise {A} (e : HTTPException) : M A := fun db => (Raise e, db).

Definition unhandled {A} (e : PythonError) : M A :=
  fun db => (Unhandled e, db).

Definition bind {A B} (m : M A) (k : A -> M B) : M B :=
  fun db =>
    match m db with
    | (Return a, db') => k a db'
    | (Raise e, db') => (Raise e, db')
    | (Unhandled e, db') => (Unhandled e, db')
    end.

Definition gets {A} (f : Database -> A) : M A := fun db => (Return (f db), db).

Definition modify (f : Database -> Database) : M unit :=
  fun db => (Return tt, f db).

Declare Scope handler_scope.
Delimit Scope handler_scope with handler.
Notation "x <- m ;; k" := (bind m (fun x => k))
  (at level 100, m at next level, right associativity) : handler_scope.
Notation "m ;;; k" := (bind m (fun _ => k))
  (at level 100, right associativity) : handler_scope.
Open Scope handler_scope.

(** ** The pymongo operations the handlers call *)

(** [collection.find_one(filter)]: the first matching document in natural
    order. *)
Definition find_one {A} (filter : A -> bool) (coll : list A) : option A :=
  List.find filter coll.

(** [collection.update_one(filter, update)]: the update applied to the first
    matching document, nothing when none matches. *)
Fixpoint update_one {A} (filter : A -> bool) (update : A -> A)
  (coll : list A) : list A :=
  match coll with
  | [] => []
  | d :: rest =>
      if filter d then update d :: rest
      else d :: update_one filter update rest
  end.

(** The driver encodes a document before it sends it: an [int] outside 8
    bytes makes it raise [OverflowError], and nothing is sent. *)
Definition bson_int (z : Z) : bool :=
  (- 2 ^ 63 <=? z) && (z <? 2 ^ 63).

Definition bson_encode (ints : list Z) : M unit :=
  if forallb bson_int ints then ret tt else unhandled OverflowError.

(** The [ObjectId] the driver generates for an inserted document. *)
Definition new_object_id : M ObjectId.t :=
  fun db => (Return (next_oid db), with_next_oid (next_oid db + 1)%N db).

(** [db["cart"].insert_one(cart)]: the driver adds the generated [_id] to
    the dictionary it is given and stores it. *)
Definition insert_one_cart (doc : ObjectId.t -> CartDoc.t) : M CartDoc.t :=
  oid <- new_object_id ;;
  modify (fun db => with_cart (cart db ++ [doc oid]) db) ;;;
  ret (doc oid).

(** [db["cart"].update_one(filter, update)] and the same with
    [upsert=True], which inserts [fresh] when no document matches; [ints]
    are the integers of the update document. *)
Definition update_one_cart (filter : CartDoc.t -> bool)
  (update : CartDoc.t -> CartDoc.t) : M unit :=
  modify (fun db => with_cart (update_one filter update (cart db)) db).

Definition upsert_one_cart (filter : CartDoc.t -> bool)
  (update : CartDoc.t -> CartDoc.t) (fresh : ObjectId.t -> CartDoc.t)
  (ints : list Z) : M unit :=
  bson_encode ints ;;;
  matched <- gets (fun db => find_one filter (cart db)) ;;
  match matched with
  | Some _ => update_one_cart filter update
  | None => insert_one_cart fresh ;;; ret tt
  end.

(** The filters [{"user_id": user_id}] and [{"_id": oid}]. *)
Definition cart_of_user (user_id : string) (c : CartDoc.t) : bool :=
  String.eqb (CartDoc.user_id c) user_id.

Definition order_of_user (user_id : string) (d : Document Order.t) : bool :=
  String.eqb (Order.user_id (data d)) user_id.

Definition has_id {A} (oid : ObjectId.t) (d : Document A) : bool :=
  ObjectId.eqb (_id d) oid.

(** [cursor.sort("created_at", -1)]: descending on the key, a missing or
    null key below every value. *)
Definition key_ltb (a b : option Z) : bool :=
  match a, b with
  | None, Some _ => true
  | Some x, Some y => x <? y
  | _, None => false
  end.

Fixpoint insert_desc {A} (d : Document A) (l : list (Document A))
  : list (Document A) :=
  match l with
  | [] => [d]
  | x :: rest =>
      if key_ltb (created_at d) (created_at x) then x :: insert_desc d rest
      else d :: x :: rest
  end.

Definition sort_desc {A} (l : list (Document A)) : list (Document A) :=
  fold_right insert_desc [] l.

(** Modelled from the spec: [database.create_document], whose module is not
    among the sources.  It serializes the record's fields to a document,
    inserts it in the named collection and returns the generated unique id as
    a string; one new document is persisted.  The creation time that
    [list_orders] sorts on is the store's clock at the insertion.  A
    failure of the store is fatal: the driver's [OverflowError] passes
    through. *)
Definition create_document {A} (collection : Collection A) (record : A)
  : M string :=
  bson_encode (open_ints collection record) ;;;
  oid <- new_object_id ;;
  now <- gets clock ;;
  modify (fun db =>
    with_documents collection
      (documents collection db ++ [mkDocument oid record (Some now)]) db) ;;;
  ret (ObjectId.str oid).

(** ** Responses *)

(** The dictionary [get_cart] returns: the cart document after
    [cart["id"] = str(cart.pop("_id"))]. *)
Module CartResponse.
Record t := mk {
  user_id : string;
  items : list CartItem.t;
  created_at : option (option Z);
  updated_at : option (option Z);
  id : string
}.
End CartResponse.

Definition cart_response (c : CartDoc.t) : CartResponse.t :=
  CartResponse.mk (CartDoc.user_id c) (CartDoc.items c)
    (CartDoc.created_at c) (CartDoc.updated_at c)
    (ObjectId.str (CartDoc._id c)).

(** A listed document after [d["id"] = str(d.pop("_id"))]. *)
Module Listed.
Record t (A : Type) := mk {
  id : string;
  data : A;
  created_at : option Z
}.
Arguments mk {A}.
Arguments id {A}.
Arguments data {A}.
Arguments created_at {A}.
End Listed.

Definition listed {A} (d : Document A) : Listed.t A :=
  Listed.mk (ObjectId.str (_id d)) (data d) (created_at d).

(** [{"id": inserted_id}] and [{"id": inserted_id, "status": "placed"}]. *)
Record Created := mkCreated { created_id : string }.

Record Placed := mkPlaced {
  placed_id : string;
  placed_status : string
}.

(** ** main.py *)

Definition to_object_id (id_str : string) : M ObjectId.t :=
  match ObjectId.parse id_str with
  | Some oid => ret oid
  | None => raise (mkHTTPException 400 "Invalid id format")
  end.

Definition create_restaurant (restaurant : Restaurant.t) : M Created :=
  inserted_id <- create_document restaurant_collection restaurant ;;
  ret (mkCreated inserted_id).

Definition create_menu_item (item : MenuItem.t) : M Created :=
  rid <- to_object_id (MenuItem.restaurant_id item) ;;
  found <- gets (fun db => find_one (has_id rid) (restaurant db)) ;;
  match found with
  | None => raise (mkHTTPException 404 "Restaurant not found")
  | Some _ =>
      inserted_id <- create_document menuitem_collection item ;;
      ret (mkCreated inserted_id)
  end.

Definition get_menu_for_restaurant (restaurant_id : string)
  : M (list (Listed.t MenuItem.t)) :=
  to_object_id restaurant_id ;;;
  docs <- gets (fun db =>
    filter (fun d => String.eqb (MenuItem.restaurant_id (data d)) restaurant_id)
      (menuitem db)) ;;
  ret (map listed docs).

Definition get_cart (user_id : string) : M CartResponse.t :=
  found <- gets (fun db => find_one (cart_of_user user_id) (cart db)) ;;
  cart <- match found with
          | Some c => ret c
          | None =>
              insert_one_cart
                (fun oid => CartDoc.mk oid user_id [] (Some None) (Some None))
          end ;;
  ret (cart_response cart).

Definition add_to_cart (user_id : string) (item : CartItem.t)
  : M CartResponse.t :=
  if CartItem.quantity item <? 1 then
    raise (mkHTTPException 400 "Quantity must be at least 1")
  else
    mid <- to_object_id (CartItem.menu_item_id item) ;;
    mi <- gets (fun db => find_one (has_id mid) (menuitem db)) ;;
    match mi with
    | None => raise (mkHTTPException 404 "Menu item not found")
    | Some _ =>
        upsert_one_cart (cart_of_user user_id) (CartDoc.push_item item)
          (fun oid => CartDoc.mk oid user_id [item] None None)
          [CartItem.quantity item] ;;;
        get_cart user_id
    end.

Definition clear_cart (user_id : string) : M CartResponse.t :=
  update_one_cart (cart_of_user user_id) (CartDoc.set_items []) ;;;
  get_cart user_id.

Definition place_order (order : Order.t) : M Placed :=
  to_object_id (Order.restaurant_id order) ;;;
  inserted_id <- create_document order_collection order ;;
  update_one_cart (cart_of_user (Order.user_id order)) (CartDoc.set_items []) ;;;
  ret (mkPlaced inserted_id "placed").

Definition list_orders (user_id : string) : M (list (Listed.t Order.t)) :=
  docs <- gets (fun db => sort_desc (filter (order_of_user user_id) (order db))) ;;
  ret (map listed docs).

(** ** Seeding ([seed_sample_data])

    The decimal literals of the source denote, as in Python, the nearest
    binary64 value. *)

(** [collection.count_documents({})] *)
Definition count_documents {A} (coll : list A) : Z := Z.of_nat (List.length coll).

(** [{"status": ..., "message": ...}] *)
Record Seeded := mkSeeded {
  seed_status : string;
  seed_message : string
}.

(** [for it in items: body(it)] *)
Fixpoint for_each {A B} (items : list A) (body : A -> M B) : M unit :=
  match items with
  | [] => ret tt
  | it :: rest => body it ;;; for_each rest body
  end.

#[warnings="-inexact-float"]
Definition seed_r1 : Restaurant.t :=
  Restaurant.mk "Sunset Pizzeria" "Italian"
    (Some "https://images.unsplash.com/photo-1604382354936-07c5d9983bd3")
    4.6%float 30 2.99%float (Some "123 Main St").

#[warnings="-inexact-float"]
Definition seed_r2 : Restaurant.t :=
  Restaurant.mk "Spice Garden" "Indian"
    (Some "https://images.unsplash.com/photo-1544025162-d76694265947")
    4.7%float 40 3.49%float (Some "55 Curry Ave").

Definition seed_items (r1_id r2_id : string) : list MenuItem.t :=
  [ MenuItem.mk r1_id "Margherita Pizza" (Some "Classic with fresh basil")
      12.5%float
      (Some "https://images.unsplash.com/photo-1548365328-9f547fb09556")
      true 0;
    MenuItem.mk r1_id "Pepperoni Pizza" (Some "Spicy pepperoni, mozzarella")
      14%float
      (Some "https://images.unsplash.com/photo-1601924582971-b6e100ca9b3a")
      false 0;
    MenuItem.mk r2_id "Butter Chicken" (Some "Creamy and rich") 13.75%float
      (Some "https://images.unsplash.com/photo-1567188040759-fb8a883dc6d8")
      false 1;
    MenuItem.mk r2_id "Paneer Tikka" (Some "Grilled cottage cheese") 11%float
      (Some "https://images.unsplash.com/photo-1604908176997-43162d71db00")
      true 2 ].

Definition seed_sample_data : M Seeded :=
  n <- gets (fun db => count_documents (restaurant db)) ;;
  if 0 <? n then ret (mkSeeded "ok" "Data already exists")
  else
    r1_id <- create_document restaurant_collection seed_r1 ;;
    r2_id <- create_document restaurant_collection seed_r2 ;;
    for_each (seed_items r1_id r2_id)
      (fun it => create_document menuitem_collection it) ;;;
    ret (mkSeeded "ok" "Seeded").

(** ** Reading a database *)

(** The item sequence of the user's cart as [find_one] sees it; a user
    without a cart document has no items. *)
Definition cart_items (user_id : string) (db : Database) : list CartItem.t :=
  match find_one (cart_of_user user_id) (cart db) with
  | Some c => CartDoc.items c
  | None => []
  end.

(** The cart documents stored for a user. *)
Definition user_carts (user_id : string) (db : Database) : list CartDoc.t :=
  filter (cart_of_user user_id) (cart db).

(** The database a handler leaves behind. *)
Definition after {A} (m : M A) (db : Database) : Database := snd (m db).

(** [a] is at most [b] as a sort key. *)
Definition key_leb (a b : option Z) : bool := negb (key_ltb b a).

(** [a] is created no earlier than [b]: in a newest-first listing [a] may
    stand before [b]. *)
Definition not_older {A} (a b : Document A) : Prop :=
  key_leb (created_at b) (created_at a) = true.

(** The creation time [a] is no later than [b].  A document without a
    creation time comes before every document with one; among times this
    is the order of the integers. *)
Definition no_later (a b : option Z) : Prop :=
  match a, b with
  | None, _ => True
  | Some _, None => False
  | Some x, Some y => x <= y
  end.

(** A listing in which every entry is created no later than each entry
    listed before it. *)
Definition newest_first {A} (l : list (Listed.t A)) : Prop :=
  StronglySorted
    (fun a b => no_later (Listed.created_at b) (Listed.created_at a)) l.

(** Every quantity of the order fits in the 8 bytes of a stored integer. *)
Definition quantities_fit (o : Order.t) : Prop :=
  Forall (fun i => - 2 ^ 63 <= CartItem.quantity i < 2 ^ 63) (Order.items o).

(** No two cart documents carry the same [user_id]. *)
Definition unique_carts (db : Database) : Prop :=
  NoDup (map CartDoc.user_id (cart db)).

(** The [restaurant_id] of a menu item names a stored restaurant, as
    [create_menu_item] checks it. *)
Definition restaurant_on_file (db : Database) (item : MenuItem.t) : Prop :=
  exists rid r,
    ObjectId.parse (MenuItem.restaurant_id item) = Some rid
    /\ find_one (has_id rid) (restaurant db) = Some r.

(** The menu listed under an id string, as [get_menu_for_restaurant] filters
    it. *)
Definition menu_under (restaurant_id : string) (db : Database)
  : list (Listed.t MenuItem.t) :=
  map listed
    (filter (fun d => String.eqb (MenuItem.restaurant_id (data d)) restaurant_id)
       (menuitem db)).

(** The ways a handler called for a user changes the cart collection: not
    at all, by rewriting the first cart of the user in place, or by
    appending one cart of the user when the user has none. *)
Inductive cart_step (user_id : string) (l l1 : list CartDoc.t) : Prop :=
| step_none : l1 = l -> cart_step user_id l l1
| step_update (update : CartDoc.t -> CartDoc.t) :
    (forall c, CartDoc.user_id (update c) = CartDoc.user_id c) ->
    (forall c, CartDoc._id (update c) = CartDoc._id c) ->
    l1 = update_one (cart_of_user user_id) update l ->
    cart_step user_id l l1
| step_insert (d : CartDoc.t) :
    find_one (cart_of_user user_id) l = None ->
    CartDoc.user_id d = user_id ->
    l1 = l ++ [d] ->
    cart_step user_id l l1.

(** The number of 12-byte identifiers. *)
Definition oid_count : N := (2 ^ 96)%N.

(** ** Sample data

    A restaurant and a dish after those of [seed_sample_data], stored under
    the ids 1 and 2, and the cart and order of user ["u1"]. *)

Definition sunset_pizzeria : Restaurant.t :=
  Restaurant.mk "Sunset Pizzeria" "Italian" None 4.5%float 30 3.5%float
    (Some "123 Main St").

Definition margherita : MenuItem.t :=
  MenuItem.mk "000000000000000000000001" "Margherita Pizza"
    (Some "Classic with fresh basil") 12.5%float None true 0.

Definition seeded_db : Database :=
  mkDatabase [mkDocument 1%N sunset_pizzeria (Some 1000)]
    [mkDocument 2%N margherita (Some 1000)] [] [] 3%N 1000.

Definition margherita_item (quantity : Z) : CartItem.t :=
  CartItem.mk "000000000000000000000001" "000000000000000000000002"
    "Margherita Pizza" 12.5%float quantity.

(** An item whose [menu_item_id] is well formed and on no menu. *)
Definition unlisted_item (quantity : Z) : CartItem.t :=
  CartItem.mk "000000000000000000000001" "0000000000000000000000ff"
    "Calzone" 9.5%float quantity.

(** The order of the two pizzas in the cart, submitted with a status other
    than the default. *)
Definition pizza_order : Order.t :=
  Order.mk "u1" "000000000000000000000001" [margherita_item 2] 25%float
    "delivered" "7 Hill Rd".

(** The database once ["u1"] has put two pizzas in the cart, and once the
    order is placed from there. *)
Definition cart_db : Database :=
  after (add_to_cart "u1" (margherita_item 2)) seeded_db.

Definition placed_db : Database := after (place_order pizza_order) cart_db.

(** A store with nothing in it, and records that point at no restaurant. *)
Definition empty_db : Database := mkDatabase [] [] [] [] 1%N 1000.

Definition order_at (restaurant_id : string) : Order.t :=
  Order.mk "u1" restaurant_id [margherita_item 2] 25%float "placed" "7 Hill Rd".

Definition dish_of (restaurant_id : string) : MenuItem.t :=
  MenuItem.mk restaurant_id "Calzone" None 9.5%float None false 1.

(** Three stored orders, two of ["u1"], in insertion order. *)
Definition order_history : Database :=
  mkDatabase [] [] []
    [mkDocument 5%N (order_at "000000000000000000000001") (Some 1010);
     mkDocument 6%N
       (Order.mk "u2" "000000000000000000000001" [] 0%float "placed" "9 Low St")
       (Some 1020);
     mkDocument 7%N (order_at "0000000000000000000000aa") (Some 1030)]
    8%N 1040.

(** An order whose one item asks for more pizzas than 8 bytes count. *)
Definition huge_order : Order.t :=
  Order.mk "u1" "000000000000000000000001" [margherita_item (2 ^ 63)]
    25%float "placed" "7 Hill Rd".

(** An id of 24 characters that spells 8 bytes. *)
Definition spaced_id : string := "00 00 00 00 00 00 00 00 ".

(** The database once ["u2"] has a cart too. *)
Definition two_carts_db : Database :=
  after (add_to_cart "u2" (margherita_item 1)) cart_db.

(** A store whose only restaurant has an id with letters in it, and a dish
    that spells this id in capitals. *)
Definition letters_db : Database :=
  mkDatabase [mkDocument 255%N sunset_pizzeria (Some 1000)] [] [] [] 256%N 1000.

Definition capitals_dish : MenuItem.t := dish_of "0000000000000000000000FF".

(** ** Facts about the store operations *)

Section StoreFacts.

Context {A : Type}.
Variable filter_ : A -> bool.

Lemma find_one_app (l1 l2 : list A) :
  find_one filter_ (l1 ++ l2) =
  match find_one filter_ l1 with
  | Some d => Some d
  | None => find_one filter_ l2
  end.
Proof.
  unfold find_one.
  induction l1 as [|d l1 IH]; simpl; [reflexivity|].
  destruct (filter_ d); [reflexivity | exact IH].
Qed.

Lemma find_one_matches (l : list A) (d : A) :
  find_one filter_ l = Some d -> filter_ d = true.
Proof.
  unfold find_one. intros H. apply find_some in H. tauto.
Qed.

Lemma find_one_none_filter (l : list A) :
  find_one filter_ l = None -> filter filter_ l = [].
Proof.
  unfold find_one.
  induction l as [|d l IH]; simpl; [reflexivity|].
  destruct (filter_ d); [discriminate | exact IH].
Qed.

Variable update : A -> A.
Hypothesis update_keeps_match : forall d, filter_ (update d) = filter_ d.

Lemma find_one_update_one (l : list A) :
  find_one filter_ (update_one filter_ update l) =
  option_map update (find_one filter_ l).
Proof.
  unfold find_one.
  induction l as [|d l IH]; simpl; [reflexivity|].
  destruct (filter_ d) eqn:E; simpl.
  - rewrite update_keeps_match, E. reflexivity.
  - rewrite E. exact IH.
Qed.

Lemma update_one_none (l : list A) :
  find_one filter_ l = None -> update_one filter_ update l = l.
Proof.
  unfold find_one.
  induction l as [|d l IH]; simpl; [reflexivity|].
  destruct (filter_ d); [discriminate|].
  intros H. rewrite (IH H). reflexivity.
Qed.

(** A second filter that never holds where the first one does is blind to
    the update. *)
Lemma find_one_update_other (other : A -> bool) (l : list A) :
  (forall d, filter_ d = true -> other d = false) ->
  (forall d, other (update d) = other d) ->
  find_one other (update_one filter_ update l) = find_one other l.
Proof.
  intros Hdisj Hkeep. unfold find_one.
  induction l as [|d l IH]; simpl; [reflexivity|].
  destruct (filter_ d) eqn:E; simpl.
  - rewrite Hkeep, (Hdisj d E). reflexivity.
  - rewrite IH. reflexivity.
Qed.

End StoreFacts.

Lemma cart_of_user_set_items (user_id : string) (l : list CartItem.t)
  (c : CartDoc.t) :
  cart_of_user user_id (CartDoc.set_items l c) = cart_of_user user_id c.
Proof. reflexivity. Qed.

Lemma cart_of_user_push_item (user_id : string) (item : CartItem.t)
  (c : CartDoc.t) :
  cart_of_user user_id (CartDoc.push_item item c) = cart_of_user user_id c.
Proof. reflexivity. Qed.

Lemma cart_of_user_other (u v : string) (c : CartDoc.t) :
  u <> v -> cart_of_user u c = true -> cart_of_user v c = false.
Proof.
  unfold cart_of_user. intros Hne Hu.
  apply String.eqb_eq in Hu. apply String.eqb_neq. congruence.
Qed.

(** ** Facts about [get_cart] *)

Lemma get_cart_found (user_id : string) (db : Database) (d : CartDoc.t) :
  find_one (cart_of_user user_id) (cart db) = Some d ->
  get_cart user_id db = (Return (cart_response d), db).
Proof.
  intros H. unfold get_cart, bind, gets, ret. simpl. rewrite H. reflexivity.
Qed.

Lemma get_cart_absent (user_id : string) (db : Database) :
  find_one (cart_of_user user_id) (cart db) = None ->
  let d := CartDoc.mk (next_oid db) user_id [] (Some None) (Some None) in
  get_cart user_id db =
  (Return (cart_response d),
   with_cart (cart db ++ [d]) (with_next_oid (next_oid db + 1)%N db)).
Proof.
  intros H. unfold get_cart, bind, gets, ret. simpl. rewrite H. reflexivity.
Qed.

Lemma get_cart_items (user_id : string) (db : Database) :
  exists c db1,
    get_cart user_id db = (Return c, db1)
    /\ CartResponse.items c = cart_items user_id db.
Proof.
  unfold cart_items.
  destruct (find_one (cart_of_user user_id) (cart db)) as [d|] eqn:E.
  - rewrite (get_cart_found _ _ _ E). eauto.
  - rewrite (get_cart_absent _ _ E). eauto.
Qed.

Lemma cart_of_user_fresh (user_id : string) (oid : ObjectId.t)
  (l : list CartItem.t) (c u : option (option Z)) :
  cart_of_user user_id (CartDoc.mk oid user_id l c u) = true.
Proof. unfold cart_of_user. simpl. apply String.eqb_refl. Qed.

Lemma find_one_inserted (user_id : string) (carts : list CartDoc.t)
  (d : CartDoc.t) :
  find_one (cart_of_user user_id) carts = None ->
  cart_of_user user_id d = true ->
  find_one (cart_of_user user_id) (carts ++ [d]) = Some d.
Proof.
  intros Hnone Hd. rewrite find_one_app, Hnone.
  unfold find_one. simpl. rewrite Hd. reflexivity.
Qed.

Lemma iter_fixed {S : Type} (f : S -> S) (s : S) (n : nat) :
  f s = s -> Nat.iter n f s = s.
Proof.
  intros H. induction n as [|n IH]; simpl; [reflexivity|].
  rewrite IH. exact H.
Qed.

(** ** The cart handlers *)

(** C1. [get_cart] always returns a cart of the requested user.  When the
    user has a cart document the first one is returned and the database is
    left as it was; when the user has none, one document with an empty item
    sequence is inserted and returned, and it is then the user's only cart
    document.  Every later [get_cart] for the same user returns the same
    response, in particular the same id, and inserts nothing. *)
Theorem get_cart_get_or_create (user_id : string) (db : Database) :
  exists c db1,
    get_cart user_id db = (Return c, db1)
    /\ CartResponse.user_id c = user_id
    /\ match find_one (cart_of_user user_id) (cart db) with
       | Some d => c = cart_response d /\ db1 = db
       | None =>
           let d :=
             CartDoc.mk (next_oid db) user_id [] (Some None) (Some None) in
           c = cart_response d
           /\ CartResponse.items c = []
           /\ cart db1 = cart db ++ [d]
           /\ user_carts user_id db1 = [d]
       end
    /\ forall n : nat,
         get_cart user_id (Nat.iter n (after (get_cart user_id)) db1)
         = (Return c, db1).
Proof.
  destruct (find_one (cart_of_user user_id) (cart db)) as [d|] eqn:E.
  - exists (cart_response d), db.
    pose proof (get_cart_found _ _ _ E) as Hget.
    split; [exact Hget|]. split.
    + apply find_one_matches in E. unfold cart_of_user in E.
      apply String.eqb_eq in E. exact E.
    + split; [split; reflexivity|].
      intros n. rewrite iter_fixed; [exact Hget|].
      unfold after. rewrite Hget. reflexivity.
  - pose proof (get_cart_absent _ _ E) as Hget. simpl in Hget.
    set (d := CartDoc.mk (next_oid db) user_id [] (Some None) (Some None)) in *.
    set (db1 := with_cart (cart db ++ [d])
                  (with_next_oid (next_oid db + 1)%N db)) in *.
    exists (cart_response d), db1.
    assert (Hd : cart_of_user user_id d = true) by apply cart_of_user_fresh.
    assert (Hagain : get_cart user_id db1 = (Return (cart_response d), db1)).
    { apply get_cart_found. simpl. apply find_one_inserted; assumption. }
    split; [exact Hget|]. split; [reflexivity|]. split.
    + repeat split.
      unfold user_carts. simpl. rewrite filter_app.
      rewrite (find_one_none_filter _ _ E). simpl. rewrite Hd. reflexivity.
    + intros n. rewrite iter_fixed; [exact Hagain|].
      unfold after. rewrite Hagain. reflexivity.
Qed.

(** C9. [clear_cart] always returns a cart with no items.  The cart that
    [find_one] sees for the user afterwards is the returned one and is
    empty: an existing document keeps its id and has its items reset, and
    when the user had no document, one is inserted empty. *)
Theorem clear_cart_empties (user_id : string) (db : Database) :
  exists c db1 d,
    clear_cart user_id db = (Return c, db1)
    /\ CartResponse.items c = []
    /\ List.length (CartResponse.items c) = 0%nat
    /\ find_one (cart_of_user user_id) (cart db1) = Some d
    /\ c = cart_response d
    /\ CartDoc.items d = []
    /\ match find_one (cart_of_user user_id) (cart db) with
       | Some d0 =>
           d = CartDoc.set_items [] d0
           /\ cart db1 =
              update_one (cart_of_user user_id) (CartDoc.set_items []) (cart db)
       | None => cart db1 = cart db ++ [d]
       end.
Proof.
  unfold clear_cart, update_one_cart, bind, modify.
  set (db' := with_cart _ db).
  destruct (find_one (cart_of_user user_id) (cart db)) as [d0|] eqn:E.
  - assert (E' : find_one (cart_of_user user_id) (cart db')
                 = Some (CartDoc.set_items [] d0)).
    { subst db'. simpl.
      rewrite find_one_update_one by (intros; apply cart_of_user_set_items).
      rewrite E. reflexivity. }
    rewrite (get_cart_found _ _ _ E').
    exists (cart_response (CartDoc.set_items [] d0)), db',
      (CartDoc.set_items [] d0).
    repeat split; assumption.
  - assert (Hsame : cart db' = cart db).
    { subst db'. simpl. apply update_one_none. exact E. }
    assert (E' : find_one (cart_of_user user_id) (cart db') = None)
      by (rewrite Hsame; exact E).
    rewrite (get_cart_absent _ _ E'). cbv zeta.
    set (d := CartDoc.mk (next_oid db') user_id [] (Some None) (Some None)).
    exists (cart_response d), (with_cart (cart db' ++ [d])
                                 (with_next_oid (next_oid db' + 1)%N db')), d.
    repeat split.
    + simpl. apply find_one_inserted; [exact E'|apply cart_of_user_fresh].
    + change (cart db' ++ [d] = cart db ++ [d]). rewrite Hsame. reflexivity.
Qed.

Lemma bson_int_quantity (q : Z) :
  1 <= q -> q < 2 ^ 63 -> forallb bson_int [q] = true.
Proof.
  intros Hlo Hhi. unfold bson_int. simpl. rewrite andb_true_r.
  apply andb_true_iff. split; [apply Z.leb_le | apply Z.ltb_lt]; lia.
Qed.

Lemma bson_int_overflow (q : Z) :
  2 ^ 63 <= q -> forallb bson_int [q] = false.
Proof.
  intros H. unfold bson_int. simpl. rewrite andb_true_r.
  apply andb_false_iff. right. apply Z.ltb_ge. exact H.
Qed.

(** A quantity that does not fit in 8 bytes stops [add_to_cart] at the
    update, with the driver's [OverflowError] and nothing written. *)
Lemma add_to_cart_overflow (user_id : string) (item : CartItem.t)
  (db : Database) (mid : ObjectId.t) (mi : Document MenuItem.t) :
  2 ^ 63 <= CartItem.quantity item ->
  ObjectId.parse (CartItem.menu_item_id item) = Some mid ->
  find_one (has_id mid) (menuitem db) = Some mi ->
  add_to_cart user_id item db = (Unhandled OverflowError, db).
Proof.
  intros Hq Hmid Hmi.
  unfold add_to_cart.
  destruct (CartItem.quantity item <? 1) eqn:Eq;
    [apply Z.ltb_lt in Eq; lia|].
  unfold to_object_id. rewrite Hmid.
  unfold bind at 1. unfold ret at 1.
  unfold bind at 1. unfold gets at 1. rewrite Hmi.
  unfold upsert_one_cart, bson_encode.
  rewrite (bson_int_overflow _ Hq). reflexivity.
Qed.

(** What a successful [add_to_cart] does: the item is pushed at the end of
    the first cart document of the user, or a document holding only the item
    is inserted; the returned cart is that document, and nothing else
    changes for the cart handlers. *)
Lemma add_to_cart_success (user_id : string) (item : CartItem.t)
  (db : Database) (mid : ObjectId.t) (mi : Document MenuItem.t) :
  1 <= CartItem.quantity item ->
  CartItem.quantity item < 2 ^ 63 ->
  ObjectId.parse (CartItem.menu_item_id item) = Some mid ->
  find_one (has_id mid) (menuitem db) = Some mi ->
  exists d db1,
    add_to_cart user_id item db = (Return (cart_response d), db1)
    /\ find_one (cart_of_user user_id) (cart db1) = Some d
    /\ CartDoc.items d = cart_items user_id db ++ [item]
    /\ menuitem db1 = menuitem db
    /\ forall v, v <> user_id ->
         find_one (cart_of_user v) (cart db1) = find_one (cart_of_user v) (cart db).
Proof.
  intros Hq Hfit Hmid Hmi.
  unfold add_to_cart.
  destruct (CartItem.quantity item <? 1) eqn:Eq;
    [apply Z.ltb_lt in Eq; lia|].
  unfold to_object_id. rewrite Hmid.
  unfold bind at 1. unfold ret at 1.
  unfold bind at 1. unfold gets at 1. rewrite Hmi.
  unfold upsert_one_cart, bson_encode, cart_items.
  rewrite (bson_int_quantity _ Hq Hfit).
  unfold bind at 1. unfold bind at 1. unfold ret at 1.
  unfold bind at 1. unfold gets at 1.
  destruct (find_one (cart_of_user user_id) (cart db)) as [d0|] eqn:E.
  - unfold update_one_cart, modify.
    set (db1 := with_cart _ db).
    assert (E1 : find_one (cart_of_user user_id) (cart db1)
                 = Some (CartDoc.push_item item d0)).
    { subst db1. simpl.
      rewrite find_one_update_one by (intros; apply cart_of_user_push_item).
      rewrite E. reflexivity. }
    exists (CartDoc.push_item item d0), db1.
    rewrite (get_cart_found _ _ _ E1).
    repeat split; try assumption.
    intros v Hv. subst db1. simpl.
    apply find_one_update_other.
    + intros d Hd. apply (cart_of_user_other user_id v); congruence.
    + intros d. apply cart_of_user_push_item.
  - unfold insert_one_cart, new_object_id, modify, ret, bind.
    set (d := CartDoc.mk (next_oid db) user_id [item] None None).
    set (db1 := with_cart _ _).
    assert (E1 : find_one (cart_of_user user_id) (cart db1) = Some d).
    { subst db1. simpl.
      apply find_one_inserted; [exact E | apply cart_of_user_fresh]. }
    exists d, db1.
    rewrite (get_cart_found _ _ _ E1).
    repeat split; try assumption.
    intros v Hv. subst db1. simpl. rewrite find_one_app.
    destruct (find_one (cart_of_user v) (cart db)); [reflexivity|].
    unfold find_one. simpl.
    rewrite (cart_of_user_other user_id v d); [reflexivity | congruence |].
    apply cart_of_user_fresh.
Qed.


(** C6. An item whose quantity is below 1 is refused with status 400 and
    the database is left exactly as it was. *)
Theorem add_to_cart_rejects_low_quantity (user_id : string)
  (item : CartItem.t) (db : Database) :
  CartItem.quantity item < 1 ->
  add_to_cart user_id item db =
  (Raise (mkHTTPException 400 "Quantity must be at least 1"), db).
Proof.
  intros Hq. unfold add_to_cart.
  apply Z.ltb_lt in Hq. rewrite Hq. reflexivity.
Qed.

(** C7. An item as the [CartItem] schema admits it (quantity at least 1)
    whose [menu_item_id] is a well-formed identifier of no menu item is
    refused with status 404 and the database is left exactly as it was.
    Whenever the call succeeds, the cart it returns is the user's stored
    cart, whose items are the earlier ones followed by the added item. *)
Theorem add_to_cart_not_found_or_updated (user_id : string)
  (item : CartItem.t) (db : Database) (mid : ObjectId.t) :
  1 <= CartItem.quantity item ->
  ObjectId.parse (CartItem.menu_item_id item) = Some mid ->
  (find_one (has_id mid) (menuitem db) = None ->
   add_to_cart user_id item db =
   (Raise (mkHTTPException 404 "Menu item not found"), db))
  /\ (forall c db1,
        add_to_cart user_id item db = (Return c, db1) ->
        exists d,
          c = cart_response d
          /\ find_one (cart_of_user user_id) (cart db1) = Some d
          /\ CartDoc.items d = cart_items user_id db ++ [item]
          /\ CartResponse.items c = cart_items user_id db ++ [item]).
Proof.
  intros Hq Hmid. split.
  - intros Emi. unfold add_to_cart.
    destruct (CartItem.quantity item <? 1) eqn:Eq;
      [apply Z.ltb_lt in Eq; lia|].
    unfold to_object_id. rewrite Hmid.
    unfold bind, ret, gets. rewrite Emi. reflexivity.
  - intros c db1 Hadd.
    destruct (find_one (has_id mid) (menuitem db)) as [mi|] eqn:Emi.
    + destruct (Z_lt_dec (CartItem.quantity item) (2 ^ 63)) as [Hfit|Hbig].
      * destruct (add_to_cart_success user_id item db mid mi Hq Hfit Hmid Emi)
          as (d & db1' & Hadd' & Hfind & Hitems & _).
        rewrite Hadd' in Hadd. inversion Hadd; subst c db1; clear Hadd.
        exists d. repeat split; assumption.
      * rewrite (add_to_cart_overflow user_id item db mid mi) in Hadd;
          [discriminate | lia | exact Hmid | exact Emi].
    + exfalso. revert Hadd. unfold add_to_cart.
      destruct (CartItem.quantity item <? 1); [discriminate|].
      unfold to_object_id. rewrite Hmid.
      unfold bind, ret, gets. rewrite Emi. discriminate.
Qed.

(** ** The catalog handler *)


(** ** The order handlers *)

(** [place_order] in closed form. *)
Lemma place_order_run (o : Order.t) (db : Database) :
  place_order o db =
  match ObjectId.parse (Order.restaurant_id o) with
  | None => (Raise (mkHTTPException 400 "Invalid id format"), db)
  | Some _ =>
      if forallb bson_int (map CartItem.quantity (Order.items o)) then
        (Return (mkPlaced (ObjectId.str (next_oid db)) "placed"),
         with_cart
           (update_one (cart_of_user (Order.user_id o)) (CartDoc.set_items [])
              (cart db))
           (with_order
              (order db ++ [mkDocument (next_oid db) o (Some (clock db))])
              (with_next_oid (next_oid db + 1)%N db)))
      else (Unhandled OverflowError, db)
  end.
Proof.
  unfold place_order, to_object_id.
  destruct (ObjectId.parse (Order.restaurant_id o)); [|reflexivity].
  unfold bind at 1. unfold ret at 1.
  unfold create_document, bson_encode. cbn [open_ints order_collection].
  destruct (forallb bson_int (map CartItem.quantity (Order.items o)));
    reflexivity.
Qed.

Lemma quantities_fit_encode (o : Order.t) :
  quantities_fit o ->
  forallb bson_int (map CartItem.quantity (Order.items o)) = true.
Proof.
  unfold quantities_fit. intros H. apply forallb_forall. intros q Hq.
  apply in_map_iff in Hq. destruct Hq as (i & <- & Hi).
  rewrite Forall_forall in H. specialize (H i Hi).
  unfold bson_int. apply andb_true_iff.
  split; [apply Z.leb_le | apply Z.ltb_lt]; lia.
Qed.

(** C2. A successful [place_order] appends the order record to the order
    collection and resets the items of the placing user's cart document,
    whatever items the order itself lists: the cart [find_one] sees for the
    user afterwards has no items, and so has the cart a following
    [get_cart] returns. *)
Theorem place_order_clears_cart (o : Order.t) (db : Database) (p : Placed)
  (db1 : Database) :
  place_order o db = (Return p, db1) ->
  order db1 = order db ++ [mkDocument (next_oid db) o (Some (clock db))]
  /\ cart db1 =
     update_one (cart_of_user (Order.user_id o)) (CartDoc.set_items [])
       (cart db)
  /\ cart_items (Order.user_id o) db1 = []
  /\ exists c db2,
       get_cart (Order.user_id o) db1 = (Return c, db2)
       /\ CartResponse.items c = [].
Proof.
  rewrite place_order_run.
  destruct (ObjectId.parse (Order.restaurant_id o)); [|discriminate].
  destruct (forallb bson_int (map CartItem.quantity (Order.items o)));
    [|discriminate].
  intros H. inversion H; subst; clear H.
  assert (Hitems : forall db',
            cart db' = update_one (cart_of_user (Order.user_id o))
                         (CartDoc.set_items []) (cart db) ->
            cart_items (Order.user_id o) db' = []).
  { intros db' Hc. unfold cart_items. rewrite Hc.
    rewrite find_one_update_one by (intros; apply cart_of_user_set_items).
    destruct (find_one (cart_of_user (Order.user_id o)) (cart db));
      reflexivity. }
  split; [reflexivity|]. split; [reflexivity|]. split.
  - apply Hitems. reflexivity.
  - match goal with
    | |- context [get_cart ?u ?d] =>
        destruct (get_cart_items u d) as (c & db2 & Hget & Hc)
    end.
    exists c, db2. split; [exact Hget|].
    rewrite Hc. apply Hitems. reflexivity.
Qed.

(** C3, as amended. [place_order] raises an [HTTPException], with status
    400 and the database left as it was, exactly when [restaurant_id] is
    malformed, that is, when the [ObjectId] constructor rejects it.  On a
    well-formed [restaurant_id] and item quantities that fit in the 8
    bytes of a stored integer it succeeds on every database, with or
    without a matching restaurant or menu items, and the stored record is
    the submitted one, its [total] included. *)
Theorem place_order_only_checks_id_format (o : Order.t) (db : Database) :
  (ObjectId.parse (Order.restaurant_id o) = None <->
   exists e db1, place_order o db = (Raise e, db1))
  /\ (ObjectId.parse (Order.restaurant_id o) = None ->
      place_order o db =
      (Raise (mkHTTPException 400 "Invalid id format"), db))
  /\ (ObjectId.parse (Order.restaurant_id o) <> None ->
      quantities_fit o ->
      exists p db1 d,
        place_order o db = (Return p, db1)
        /\ order db1 = order db ++ [d]
        /\ data d = o
        /\ Order.total (data d) = Order.total o
        /\ Order.items (data d) = Order.items o
        /\ restaurant db1 = restaurant db
        /\ menuitem db1 = menuitem db).
Proof.
  rewrite place_order_run.
  destruct (ObjectId.parse (Order.restaurant_id o)) as [rid|].
  - split; [|split].
    + split; [discriminate|]. intros (e & db1 & H).
      destruct (forallb bson_int (map CartItem.quantity (Order.items o)));
        discriminate H.
    + discriminate.
    + intros _ Hfit. rewrite (quantities_fit_encode o Hfit).
      do 3 eexists. repeat split.
  - split; [|split].
    + split; [|reflexivity]. intros _. eauto.
    + reflexivity.
    + congruence.
Qed.

(** C3, as first stated, fails on an order that asks for [2 ^ 63] pizzas:
    its [restaurant_id] is well formed and the quantity passes the schema,
    yet [place_order] does not succeed; the driver raises [OverflowError]
    and nothing is stored. *)
Lemma place_order_overflow :
  ObjectId.parse (Order.restaurant_id huge_order) = Some 1%N
  /\ Forall (fun i => 1 <= CartItem.quantity i) (Order.items huge_order)
  /\ place_order huge_order seeded_db = (Unhandled OverflowError, seeded_db)
  /\ ~ (exists p db1, place_order huge_order seeded_db = (Return p, db1)).
Proof.
  split; [reflexivity|]. split.
  - repeat constructor. simpl. lia.
  - assert (H : place_order huge_order seeded_db
                = (Unhandled OverflowError, seeded_db)).
    { rewrite place_order_run. reflexivity. }
    split; [exact H|].
    intros (p & db1 & Hp). rewrite H in Hp. discriminate Hp.
Qed.

(** C10. The response of a successful [place_order] carries the status
    ["placed"], and the stored order document carries the status the caller
    submitted. *)
Theorem place_order_status (o : Order.t) (db : Database) (p : Placed)
  (db1 : Database) :
  place_order o db = (Return p, db1) ->
  placed_status p = "placed"
  /\ exists d,
       order db1 = order db ++ [d]
       /\ data d = o
       /\ Order.status (data d) = Order.status o
       /\ placed_id p = ObjectId.str (_id d).
Proof.
  rewrite place_order_run.
  destruct (ObjectId.parse (Order.restaurant_id o)); [|discriminate].
  destruct (forallb bson_int (map CartItem.quantity (Order.items o)));
    [|discriminate].
  intros H. inversion H; subst; clear H.
  split; [reflexivity|]. eexists. repeat split.
Qed.

(** ** Sorting by creation time *)

Lemma key_ltb_leb (a b : option Z) : key_ltb a b = true -> key_leb a b = true.
Proof.
  unfold key_leb.
  destruct a as [x|], b as [y|]; simpl; try discriminate; try reflexivity.
  intros H. apply Z.ltb_lt in H. apply negb_true_iff, Z.ltb_ge. lia.
Qed.

Lemma key_leb_trans (a b c : option Z) :
  key_leb a b = true -> key_leb b c = true -> key_leb a c = true.
Proof.
  unfold key_leb.
  destruct a as [x|], b as [y|], c as [z|]; simpl;
    try discriminate; try reflexivity.
  rewrite !negb_true_iff, !Z.ltb_ge. lia.
Qed.

Section SortFacts.

Context {A : Type}.

Lemma insert_desc_perm (d : Document A) (l : list (Document A)) :
  Permutation (insert_desc d l) (d :: l).
Proof.
  induction l as [|x l IH]; simpl; [constructor; constructor|].
  destruct (key_ltb (created_at d) (created_at x)).
  - rewrite IH. apply perm_swap.
  - reflexivity.
Qed.

Lemma sort_desc_perm (l : list (Document A)) : Permutation (sort_desc l) l.
Proof.
  unfold sort_desc.
  induction l as [|d l IH]; simpl; [constructor|].
  rewrite insert_desc_perm. constructor. exact IH.
Qed.

Lemma insert_desc_sorted (d : Document A) (l : list (Document A)) :
  StronglySorted not_older l -> StronglySorted not_older (insert_desc d l).
Proof.
  induction 1 as [|x l Hsorted IH Hall]; simpl.
  - constructor; constructor.
  - destruct (key_ltb (created_at d) (created_at x)) eqn:E.
    + constructor; [exact IH|].
      apply (Permutation_Forall (x := d :: l)).
      * symmetry. apply insert_desc_perm.
      * constructor; [|exact Hall].
        unfold not_older. apply key_ltb_leb. exact E.
    + assert (Hdx : not_older d x).
      { unfold not_older, key_leb. rewrite E. reflexivity. }
      constructor; [constructor; assumption|].
      constructor; [exact Hdx|].
      eapply Forall_impl; [|exact Hall].
      intros y Hxy. unfold not_older in *.
      eapply key_leb_trans; eassumption.
Qed.

Lemma sort_desc_sorted (l : list (Document A)) :
  StronglySorted not_older (sort_desc l).
Proof.
  unfold sort_desc.
  induction l as [|d l IH]; simpl; [constructor|].
  apply insert_desc_sorted. exact IH.
Qed.

End SortFacts.

Lemma key_leb_no_later (a b : option Z) :
  key_leb a b = true -> no_later a b.
Proof.
  unfold key_leb, key_ltb, no_later.
  destruct a as [x|], b as [y|]; simpl; try discriminate; try exact (fun _ => I).
  rewrite negb_true_iff, Z.ltb_ge. exact (fun H => H).
Qed.

Lemma newest_first_listed {A} (l : list (Document A)) :
  StronglySorted not_older l -> newest_first (map listed l).
Proof.
  unfold newest_first.
  induction 1 as [|x l Hsorted IH Hall]; simpl; constructor.
  - exact IH.
  - apply Forall_map. eapply Forall_impl; [|exact Hall].
    intros d Hd. apply key_leb_no_later. exact Hd.
Qed.

(** C4. [list_orders] reads without writing and returns exactly the orders
    whose [user_id] is the requested one, each once, with the most recently
    created first: of any two listed orders, the one listed later has a
    [created_at] that is at most, as an integer, the one of the order listed
    before it (an order without [created_at] comes after all others). *)
Theorem list_orders_newest_first (user_id : string) (db : Database) :
  exists docs,
    list_orders user_id db = (Return docs, db)
    /\ Permutation docs (map listed (filter (order_of_user user_id) (order db)))
    /\ newest_first docs
    /\ (forall d, In d docs -> Order.user_id (Listed.data d) = user_id)
    /\ (forall d, In d (order db) -> Order.user_id (data d) = user_id ->
                  In (listed d) docs).
Proof.
  exists (map listed (sort_desc (filter (order_of_user user_id) (order db)))).
  assert (Hperm :
    Permutation
      (map listed (sort_desc (filter (order_of_user user_id) (order db))))
      (map listed (filter (order_of_user user_id) (order db)))).
  { apply Permutation_map, sort_desc_perm. }
  split; [reflexivity|]. split; [exact Hperm|]. split; [|split].
  - apply newest_first_listed, sort_desc_sorted.
  - intros d Hin. apply (Permutation_in _ Hperm) in Hin.
    apply in_map_iff in Hin. destruct Hin as (x & Hx & Hin). subst d.
    apply filter_In in Hin. destruct Hin as [_ Hu].
    apply String.eqb_eq in Hu. exact Hu.
  - intros d Hin Hu. apply (Permutation_in _ (Permutation_sym Hperm)).
    apply in_map, filter_In. split; [exact Hin|].
    unfold order_of_user. apply String.eqb_eq. exact Hu.
Qed.

(** ** Worked instances *)

Example object_id_round_trip :
  ObjectId.parse (ObjectId.str 255%N) = Some 255%N
  /\ ObjectId.parse "0000000000000000000000FF" = Some 255%N
  /\ ObjectId.parse "ff" = None
  /\ ObjectId.parse "00000000000000000000000g" = None.
Proof. repeat split. Qed.

(** An id of 24 characters with whitespace between the pairs of digits
    passes [to_object_id], as 8 bytes that are the [_id] of no document:
    the catalog and cart handlers go on to their lookups, and [place_order]
    stores the order. *)
Example spaced_id_passes :
  String.length spaced_id = 24%nat
  /\ ObjectId.parse spaced_id = Some (9 * 2 ^ 96)%N
  /\ create_menu_item (dish_of spaced_id) seeded_db
     = (Raise (mkHTTPException 404 "Restaurant not found"), seeded_db)
  /\ get_menu_for_restaurant spaced_id seeded_db = (Return [], seeded_db)
  /\ add_to_cart "u1"
       (CartItem.mk "000000000000000000000001" spaced_id "Pizza" 12.5%float 1)
       seeded_db
     = (Raise (mkHTTPException 404 "Menu item not found"), seeded_db)
  /\ fst (place_order (order_at spaced_id) cart_db)
     = Return (mkPlaced "000000000000000000000004" "placed")
  /\ cart_items "u1" (after (place_order (order_at spaced_id)) cart_db) = [].
Proof. repeat split. Qed.

Example other_strings_are_refused :
  ObjectId.parse "0000000000000000000000 1" = None
  /\ ObjectId.parse "0 0000000000000000000001" = None
  /\ ObjectId.parse "00000000000000000000001" = None
  /\ ObjectId.parse "0000000000000000000000001" = None
  /\ ObjectId.parse "00000000000000000000-001" = None.
Proof. repeat split. Qed.

(** The scenario of the specification: restaurant, dish, two pizzas in the
    cart of ["u1"], the order, and the cart read back. *)
Example scenario_cart :
  (create_restaurant sunset_pizzeria ;;;
   create_menu_item margherita ;;;
   add_to_cart "u1" (margherita_item 2)) empty_db
  = (Return (CartResponse.mk "u1" [margherita_item 2] None None
               "000000000000000000000003"),
     cart_db).
Proof. reflexivity. Qed.

Example scenario_order :
  (place_order pizza_order ;;; get_cart "u1") cart_db
  = (Return (CartResponse.mk "u1" [] None None "000000000000000000000003"),
     placed_db)
  /\ order placed_db = [mkDocument 4%N pizza_order (Some 1000)].
Proof. split; reflexivity. Qed.

Example scenario_history :
  list_orders "u1" order_history
  = (Return [Listed.mk "000000000000000000000007"
               (order_at "0000000000000000000000aa") (Some 1030);
             Listed.mk "000000000000000000000005"
               (order_at "000000000000000000000001") (Some 1010)],
     order_history).
Proof. reflexivity. Qed.

Lemma place_order_clears_cart_witness :
  place_order pizza_order cart_db
  = (Return (mkPlaced "000000000000000000000004" "placed"), placed_db)
  /\ cart_items "u1" cart_db = [margherita_item 2]
  /\ cart_items "u1" placed_db = [].
Proof.
  split; [reflexivity|]. split; [reflexivity|].
  exact (proj1 (proj2 (proj2
           (place_order_clears_cart pizza_order cart_db
              (mkPlaced "000000000000000000000004" "placed") placed_db
              eq_refl)))).
Defined.

Lemma place_order_only_checks_id_format_witness :
  ObjectId.parse (Order.restaurant_id (order_at "pizzeria")) = None
  /\ place_order (order_at "pizzeria") seeded_db
     = (Raise (mkHTTPException 400 "Invalid id format"), seeded_db)
  /\ ObjectId.parse (Order.restaurant_id pizza_order) <> None
  /\ quantities_fit pizza_order
  /\ exists p db1 d,
       place_order pizza_order empty_db = (Return p, db1)
       /\ order db1 = order empty_db ++ [d]
       /\ data d = pizza_order
       /\ Order.total (data d) = Order.total pizza_order
       /\ Order.items (data d) = Order.items pizza_order
       /\ restaurant db1 = restaurant empty_db
       /\ menuitem db1 = menuitem empty_db.
Proof.
  split; [reflexivity|]. split.
  - apply (proj1 (proj2
             (place_order_only_checks_id_format (order_at "pizzeria")
                seeded_db))).
    reflexivity.
  - assert (Hfit : quantities_fit pizza_order).
    { unfold quantities_fit. simpl. repeat constructor; simpl; lia. }
    split; [vm_compute; discriminate|]. split; [exact Hfit|].
    apply (proj2 (proj2
             (place_order_only_checks_id_format pizza_order empty_db)));
      [vm_compute; discriminate | exact Hfit].
Defined.

Lemma place_order_status_witness :
  place_order pizza_order cart_db
  = (Return (mkPlaced "000000000000000000000004" "placed"), placed_db)
  /\ Order.status pizza_order = "delivered"
  /\ placed_status (mkPlaced "000000000000000000000004" "placed") = "placed"
  /\ exists d,
       order placed_db = order cart_db ++ [d]
       /\ data d = pizza_order
       /\ Order.status (data d) = Order.status pizza_order
       /\ placed_id (mkPlaced "000000000000000000000004" "placed")
          = ObjectId.str (_id d).
Proof.
  split; [reflexivity|]. split; [reflexivity|].
  apply (place_order_status pizza_order cart_db
           (mkPlaced "000000000000000000000004" "placed") placed_db).
  reflexivity.
Defined.


Lemma add_to_cart_rejects_low_quantity_witness :
  CartItem.quantity (margherita_item 0) < 1
  /\ add_to_cart "u1" (margherita_item 0) cart_db
     = (Raise (mkHTTPException 400 "Quantity must be at least 1"), cart_db).
Proof.
  split; [simpl; lia|].
  apply (add_to_cart_rejects_low_quantity "u1" (margherita_item 0) cart_db).
  simpl. lia.
Defined.

Lemma add_to_cart_not_found_or_updated_witness :
  1 <= CartItem.quantity (unlisted_item 1)
  /\ ObjectId.parse (CartItem.menu_item_id (unlisted_item 1)) = Some 255%N
  /\ find_one (has_id 255%N) (menuitem cart_db) = None
  /\ add_to_cart "u1" (unlisted_item 1) cart_db
     = (Raise (mkHTTPException 404 "Menu item not found"), cart_db)
  /\ 1 <= CartItem.quantity (margherita_item 2)
  /\ ObjectId.parse (CartItem.menu_item_id (margherita_item 2)) = Some 2%N
  /\ add_to_cart "u1" (margherita_item 2) seeded_db
     = (Return (CartResponse.mk "u1" [margherita_item 2] None None
                  "000000000000000000000003"),
        cart_db)
  /\ exists d,
       CartResponse.mk "u1" [margherita_item 2] None None
         "000000000000000000000003" = cart_response d
       /\ find_one (cart_of_user "u1") (cart cart_db) = Some d
       /\ CartDoc.items d = cart_items "u1" seeded_db ++ [margherita_item 2]
       /\ CartResponse.items
            (CartResponse.mk "u1" [margherita_item 2] None None
               "000000000000000000000003")
          = cart_items "u1" seeded_db ++ [margherita_item 2].
Proof.
  assert (H1 : 1 <= CartItem.quantity (unlisted_item 1)) by (simpl; lia).
  assert (H2 : 1 <= CartItem.quantity (margherita_item 2)) by (simpl; lia).
  split; [exact H1|]. split; [reflexivity|]. split; [reflexivity|]. split.
  - apply (proj1 (add_to_cart_not_found_or_updated "u1" (unlisted_item 1)
                    cart_db 255%N H1 eq_refl)).
    reflexivity.
  - split; [exact H2|]. split; [reflexivity|]. split; [reflexivity|].
    apply (proj2 (add_to_cart_not_found_or_updated "u1" (margherita_item 2)
                    seeded_db 2%N H2 eq_refl)).
    reflexivity.
Defined.


(** ** Identifiers handed out and taken back *)

Lemma hex_digit_digit_char (d : N) :
  (d < 16)%N -> ObjectId.hex_digit (ObjectId.digit_char d) = Some d.
Proof.
  intros H.
  assert (Hcases : In d (map N.of_nat (seq 0 16))).
  { apply in_map_iff. exists (N.to_nat d). split; [apply N2Nat.id|].
    apply in_seq. lia. }
  simpl in Hcases.
  repeat (destruct Hcases as [Hd|Hcases]; [subst d; reflexivity|]).
  destruct Hcases.
Qed.

Lemma is_space_digit_char (d : N) :
  (d < 16)%N -> ObjectId.is_space (ObjectId.digit_char d) = false.
Proof.
  intros H.
  assert (Hcases : In d (map N.of_nat (seq 0 16))).
  { apply in_map_iff. exists (N.to_nat d). split; [apply N2Nat.id|].
    apply in_seq. lia. }
  simpl in Hcases.
  repeat (destruct Hcases as [Hd|Hcases]; [subst d; reflexivity|]).
  destruct Hcases.
Qed.

Lemma hexlify_length (k : nat) (v : N) (acc : string) :
  String.length (ObjectId.hexlify k v acc) = (k + String.length acc)%nat.
Proof.
  revert v acc. induction k as [|k IH]; intros v acc; simpl; [reflexivity|].
  rewrite IH. simpl. lia.
Qed.

Lemma fromhex_pair (hi lo : N) (rest : string) :
  (hi < 16)%N -> (lo < 16)%N ->
  ObjectId.fromhex
    (String (ObjectId.digit_char hi) (String (ObjectId.digit_char lo) rest))
  = option_map (cons (16 * hi + lo)%N) (ObjectId.fromhex rest).
Proof.
  intros Hhi Hlo. cbn [ObjectId.fromhex].
  rewrite (is_space_digit_char hi Hhi).
  rewrite (hex_digit_digit_char hi Hhi), (hex_digit_digit_char lo Hlo).
  reflexivity.
Qed.

Lemma fromhex_hexlify (k : nat) (v : N) (acc : string) :
  ObjectId.fromhex (ObjectId.hexlify (2 * k) v acc) =
  option_map (app (ObjectId.bytes_of k v)) (ObjectId.fromhex acc).
Proof.
  revert v acc. induction k as [|k IH]; intros v acc.
  - simpl. destruct (ObjectId.fromhex acc); reflexivity.
  - replace (2 * S k)%nat with (S (S (2 * k))) by lia.
    cbn [ObjectId.hexlify ObjectId.bytes_of]. rewrite IH.
    rewrite fromhex_pair by (apply N.mod_lt; lia).
    rewrite N.Div0.div_div. change (16 * 16)%N with 256%N.
    replace (16 * ((v / 16) mod 16) + v mod 16)%N with (v mod 256)%N.
    + destruct (ObjectId.fromhex acc) as [bs|]; [|reflexivity].
      simpl. rewrite <- app_assoc. reflexivity.
    + change 256%N with (16 * 16)%N.
      rewrite (N.Div0.mod_mul_r v 16 16). lia.
Qed.

Lemma bytes_of_length (k : nat) (v : N) :
  List.length (ObjectId.bytes_of k v) = k.
Proof.
  revert v. induction k as [|k IH]; intros v; simpl; [reflexivity|].
  rewrite length_app, IH. simpl. lia.
Qed.

Lemma value_bytes_of (k : nat) (v : N) :
  ObjectId.value (ObjectId.bytes_of k v) = (v mod 256 ^ N.of_nat k)%N.
Proof.
  unfold ObjectId.value. revert v. induction k as [|k IH]; intros v.
  - simpl. rewrite N.mod_1_r. reflexivity.
  - cbn [ObjectId.bytes_of]. rewrite fold_left_app. cbn [fold_left].
    rewrite IH, Nat2N.inj_succ, N.pow_succ_r'.
    rewrite (N.Div0.mod_mul_r v 256 (256 ^ N.of_nat k)). lia.
Qed.

Lemma parse_str (oid : ObjectId.t) :
  (oid < oid_count)%N -> ObjectId.parse (ObjectId.str oid) = Some oid.
Proof.
  intros H. unfold ObjectId.parse, ObjectId.str.
  rewrite hexlify_length. cbn [String.length Nat.add Nat.eqb].
  change 24%nat with (2 * 12)%nat. rewrite fromhex_hexlify.
  cbn [ObjectId.fromhex option_map].
  unfold ObjectId.of_bytes. rewrite app_nil_r, bytes_of_length.
  cbn [Nat.eqb]. rewrite value_bytes_of.
  rewrite N.mod_small; [reflexivity|].
  unfold oid_count in H. change (256 ^ N.of_nat 12)%N with (2 ^ 96)%N.
  exact H.
Qed.

(** X1. An id string the API hands out, the 24 digits [str] prints for a
    12-byte identifier, is taken back by [to_object_id] as the same
    identifier, without touching the database. *)
Theorem to_object_id_round_trip (oid : ObjectId.t) (db : Database) :
  (oid < oid_count)%N ->
  to_object_id (ObjectId.str oid) db = (Return oid, db).
Proof.
  intros H. unfold to_object_id. rewrite (parse_str oid H). reflexivity.
Qed.

(** ** The cart handlers in closed form *)

Lemma with_cart_same (db : Database) : with_cart (cart db) db = db.
Proof. destruct db; reflexivity. Qed.

Lemma get_cart_run (user_id : string) (db : Database) :
  get_cart user_id db =
  match find_one (cart_of_user user_id) (cart db) with
  | Some d => (Return (cart_response d), db)
  | None =>
      let d := CartDoc.mk (next_oid db) user_id [] (Some None) (Some None) in
      (Return (cart_response d),
       with_cart (cart db ++ [d]) (with_next_oid (next_oid db + 1)%N db))
  end.
Proof.
  destruct (find_one (cart_of_user user_id) (cart db)) as [d|] eqn:E.
  - apply get_cart_found. exact E.
  - apply (get_cart_absent _ _ E).
Qed.

Lemma clear_cart_run (user_id : string) (db : Database) :
  clear_cart user_id db =
  match find_one (cart_of_user user_id) (cart db) with
  | Some d0 =>
      (Return (cart_response (CartDoc.set_items [] d0)),
       with_cart
         (update_one (cart_of_user user_id) (CartDoc.set_items []) (cart db))
         db)
  | None =>
      let d := CartDoc.mk (next_oid db) user_id [] (Some None) (Some None) in
      (Return (cart_response d),
       with_cart (cart db ++ [d]) (with_next_oid (next_oid db + 1)%N db))
  end.
Proof.
  unfold clear_cart, update_one_cart, bind, modify.
  destruct (find_one (cart_of_user user_id) (cart db)) as [d0|] eqn:E.
  - apply get_cart_found. simpl.
    rewrite find_one_update_one by (intros; apply cart_of_user_set_items).
    rewrite E. reflexivity.
  - rewrite (update_one_none _ _ _ E), with_cart_same.
    apply (get_cart_absent _ _ E).
Qed.

Lemma add_to_cart_run (user_id : string) (item : CartItem.t) (db : Database) :
  add_to_cart user_id item db =
  if CartItem.quantity item <? 1 then
    (Raise (mkHTTPException 400 "Quantity must be at least 1"), db)
  else
    match ObjectId.parse (CartItem.menu_item_id item) with
    | None => (Raise (mkHTTPException 400 "Invalid id format"), db)
    | Some mid =>
        match find_one (has_id mid) (menuitem db) with
        | None => (Raise (mkHTTPException 404 "Menu item not found"), db)
        | Some _ =>
            if bson_int (CartItem.quantity item) then
              match find_one (cart_of_user user_id) (cart db) with
              | Some d0 =>
                  (Return (cart_response (CartDoc.push_item item d0)),
                   with_cart
                     (update_one (cart_of_user user_id)
                        (CartDoc.push_item item) (cart db)) db)
              | None =>
                  let d := CartDoc.mk (next_oid db) user_id [item] None None in
                  (Return (cart_response d),
                   with_cart (cart db ++ [d])
                     (with_next_oid (next_oid db + 1)%N db))
              end
            else (Unhandled OverflowError, db)
        end
    end.
Proof.
  unfold add_to_cart.
  destruct (CartItem.quantity item <? 1); [reflexivity|].
  unfold to_object_id.
  destruct (ObjectId.parse (CartItem.menu_item_id item)) as [mid|];
    [|reflexivity].
  unfold bind at 1. unfold ret at 1.
  unfold bind at 1. unfold gets at 1.
  destruct (find_one (has_id mid) (menuitem db)) as [mi|]; [|reflexivity].
  unfold upsert_one_cart, bson_encode. cbn [forallb].
  rewrite andb_true_r.
  destruct (bson_int (CartItem.quantity item)); [|reflexivity].
  unfold bind at 1. unfold bind at 1. unfold ret at 1.
  unfold bind at 1. unfold gets at 1.
  destruct (find_one (cart_of_user user_id) (cart db)) as [d0|] eqn:E.
  - unfold update_one_cart, modify.
    apply get_cart_found. simpl.
    rewrite find_one_update_one by (intros; apply cart_of_user_push_item).
    rewrite E. reflexivity.
  - unfold insert_one_cart, new_object_id, modify, ret, bind.
    apply get_cart_found. simpl.
    apply find_one_inserted; [exact E | apply cart_of_user_fresh].
Qed.

(** ** How the handlers step the cart collection *)

Lemma get_cart_step (user_id : string) (db : Database) :
  cart_step user_id (cart db) (cart (after (get_cart user_id) db)).
Proof.
  unfold after. rewrite get_cart_run.
  destruct (find_one (cart_of_user user_id) (cart db)) eqn:E.
  - apply step_none. reflexivity.
  - eapply step_insert; [exact E| |reflexivity]. reflexivity.
Qed.

Lemma clear_cart_step (user_id : string) (db : Database) :
  cart_step user_id (cart db) (cart (after (clear_cart user_id) db)).
Proof.
  unfold after. rewrite clear_cart_run.
  destruct (find_one (cart_of_user user_id) (cart db)) eqn:E.
  - eapply step_update; [| |reflexivity]; reflexivity.
  - eapply step_insert; [exact E| |reflexivity]. reflexivity.
Qed.

Lemma add_to_cart_step (user_id : string) (item : CartItem.t) (db : Database) :
  cart_step user_id (cart db) (cart (after (add_to_cart user_id item) db)).
Proof.
  unfold after. rewrite add_to_cart_run.
  destruct (CartItem.quantity item <? 1); [apply step_none; reflexivity|].
  destruct (ObjectId.parse (CartItem.menu_item_id item)) as [mid|];
    [|apply step_none; reflexivity].
  destruct (find_one (has_id mid) (menuitem db));
    [|apply step_none; reflexivity].
  destruct (bson_int (CartItem.quantity item));
    [|apply step_none; reflexivity].
  destruct (find_one (cart_of_user user_id) (cart db)) eqn:E.
  - eapply step_update; [| |reflexivity]; reflexivity.
  - eapply step_insert; [exact E| |reflexivity]. reflexivity.
Qed.

Lemma place_order_step (o : Order.t) (db : Database) :
  cart_step (Order.user_id o) (cart db) (cart (after (place_order o) db)).
Proof.
  unfold after. rewrite place_order_run.
  destruct (ObjectId.parse (Order.restaurant_id o));
    [|apply step_none; reflexivity].
  destruct (forallb bson_int (map CartItem.quantity (Order.items o)));
    [|apply step_none; reflexivity].
  eapply step_update; [| |reflexivity]; reflexivity.
Qed.

Lemma update_one_map {A B} (filter_ : A -> bool) (update : A -> A)
  (f : A -> B) (l : list A) :
  (forall d, f (update d) = f d) ->
  map f (update_one filter_ update l) = map f l.
Proof.
  intros H. induction l as [|d l IH]; simpl; [reflexivity|].
  destruct (filter_ d); simpl; [rewrite H | rewrite IH]; reflexivity.
Qed.

Lemma find_one_none_user (user_id : string) (l : list CartDoc.t) :
  find_one (cart_of_user user_id) l = None ->
  ~ In user_id (map CartDoc.user_id l).
Proof.
  intros Hnone Hin. apply in_map_iff in Hin. destruct Hin as (c & Hc & Hin).
  unfold find_one in Hnone.
  apply (find_none _ _ Hnone) in Hin.
  unfold cart_of_user in Hin. rewrite Hc, String.eqb_refl in Hin.
  discriminate.
Qed.

Lemma cart_step_unique (user_id : string) (l l1 : list CartDoc.t) :
  cart_step user_id l l1 ->
  NoDup (map CartDoc.user_id l) -> NoDup (map CartDoc.user_id l1).
Proof.
  intros [-> | update Hu _ -> | d Hnone Hd ->] H.
  - exact H.
  - rewrite update_one_map by exact Hu. exact H.
  - rewrite map_app. simpl.
    apply (Permutation_NoDup (l := CartDoc.user_id d :: map CartDoc.user_id l)).
    + apply Permutation_cons_append.
    + constructor; [|exact H].
      rewrite Hd. apply find_one_none_user. exact Hnone.
Qed.

Lemma cart_step_other (user_id v : string) (l l1 : list CartDoc.t) :
  cart_step user_id l l1 -> v <> user_id ->
  find_one (cart_of_user v) l1 = find_one (cart_of_user v) l.
Proof.
  intros [-> | update Hu _ -> | d Hnone Hd ->] Hv.
  - reflexivity.
  - apply find_one_update_other.
    + intros c Hc. apply (cart_of_user_other user_id v); congruence.
    + intros c. unfold cart_of_user. rewrite Hu. reflexivity.
  - rewrite find_one_app.
    destruct (find_one (cart_of_user v) l); [reflexivity|].
    unfold find_one, cart_of_user. simpl. rewrite Hd.
    apply String.eqb_neq in Hv. rewrite String.eqb_sym, Hv. reflexivity.
Qed.

Lemma cart_step_keeps_id (user_id : string) (l l1 : list CartDoc.t)
  (d : CartDoc.t) :
  cart_step user_id l l1 ->
  find_one (cart_of_user user_id) l = Some d ->
  exists d1,
    find_one (cart_of_user user_id) l1 = Some d1
    /\ CartDoc._id d1 = CartDoc._id d.
Proof.
  intros [-> | update Hu Hi -> | d' Hnone Hd ->] Hfind.
  - eauto.
  - rewrite find_one_update_one, Hfind.
    + simpl. eauto.
    + intros c. unfold cart_of_user. rewrite Hu. reflexivity.
  - congruence.
Qed.

(** ** More on the cart handlers *)

(** X2. With a quantity of at least 1, a [menu_item_id] that the
    [ObjectId] constructor rejects is refused with status 400 and the
    message of [to_object_id]; the database is left exactly as it was. *)
Theorem add_to_cart_malformed_id (user_id : string) (item : CartItem.t)
  (db : Database) :
  1 <= CartItem.quantity item ->
  ObjectId.parse (CartItem.menu_item_id item) = None ->
  add_to_cart user_id item db =
  (Raise (mkHTTPException 400 "Invalid id format"), db).
Proof.
  intros Hq Hparse. rewrite add_to_cart_run, Hparse.
  destruct (CartItem.quantity item <? 1) eqn:E; [|reflexivity].
  apply Z.ltb_lt in E. lia.
Qed.

(** X3. Whenever [add_to_cart] fails, nothing has been written.  An
    [HTTPException] it raises is one of three: 400 for the quantity, 400
    for the id format, 404 for the menu item.  Any other failure is the
    driver's [OverflowError], and it occurs only for a quantity of
    [2 ^ 63] or more. *)
Theorem add_to_cart_failure_writes_nothing (user_id : string)
  (item : CartItem.t) (db : Database) :
  (forall e db1,
     add_to_cart user_id item db = (Raise e, db1) ->
     db1 = db
     /\ (e = mkHTTPException 400 "Quantity must be at least 1"
         \/ e = mkHTTPException 400 "Invalid id format"
         \/ e = mkHTTPException 404 "Menu item not found"))
  /\ (forall e db1,
        add_to_cart user_id item db = (Unhandled e, db1) ->
        db1 = db /\ e = OverflowError /\ 2 ^ 63 <= CartItem.quantity item).
Proof.
  rewrite add_to_cart_run.
  destruct (CartItem.quantity item <? 1) eqn:Eq.
  { split; intros e db1 H; inversion H. auto. }
  destruct (ObjectId.parse (CartItem.menu_item_id item)) as [mid|].
  2: { split; intros e db1 H; inversion H. auto. }
  destruct (find_one (has_id mid) (menuitem db)).
  2: { split; intros e db1 H; inversion H. auto. }
  destruct (bson_int (CartItem.quantity item)) eqn:Eb.
  - destruct (find_one (cart_of_user user_id) (cart db));
      split; intros e db1 H; discriminate H.
  - split; intros e db1 H; [discriminate H|].
    split; [congruence|]. split; [destruct e; reflexivity|].
    unfold bson_int in Eb. apply andb_false_iff in Eb.
    apply Z.ltb_ge in Eq.
    destruct Eb as [Eb|Eb]; [apply Z.leb_gt in Eb | apply Z.ltb_ge in Eb]; lia.
Qed.

(** X4. The cart a successful [add_to_cart] or a [clear_cart] returns is the
    stored one: a [get_cart] right after it returns the same response and
    writes nothing. *)
Theorem get_cart_after_write (user_id : string) (db : Database)
  (c : CartResponse.t) (db1 : Database) :
  (forall item,
     add_to_cart user_id item db = (Return c, db1) ->
     get_cart user_id db1 = (Return c, db1))
  /\ (clear_cart user_id db = (Return c, db1) ->
      get_cart user_id db1 = (Return c, db1)).
Proof.
  split.
  - intros item. rewrite add_to_cart_run.
    destruct (CartItem.quantity item <? 1); [discriminate|].
    destruct (ObjectId.parse (CartItem.menu_item_id item)) as [mid|];
      [|discriminate].
    destruct (find_one (has_id mid) (menuitem db)); [|discriminate].
    destruct (bson_int (CartItem.quantity item)); [|discriminate].
    destruct (find_one (cart_of_user user_id) (cart db)) as [d0|] eqn:E;
      intros H; inversion H; subst; clear H; apply get_cart_found; simpl.
    + rewrite find_one_update_one by (intros; apply cart_of_user_push_item).
      rewrite E. reflexivity.
    + apply find_one_inserted; [exact E | apply cart_of_user_fresh].
  - rewrite clear_cart_run.
    destruct (find_one (cart_of_user user_id) (cart db)) as [d0|] eqn:E;
      intros H; inversion H; subst; clear H; apply get_cart_found; simpl.
    + rewrite find_one_update_one by (intros; apply cart_of_user_set_items).
      rewrite E. reflexivity.
    + apply find_one_inserted; [exact E | apply cart_of_user_fresh].
Qed.

Lemma update_one_fixed {A} (filter_ : A -> bool) (update : A -> A)
  (l : list A) :
  (forall d, find_one filter_ l = Some d -> update d = d) ->
  update_one filter_ update l = l.
Proof.
  unfold find_one. induction l as [|x l IH]; simpl; [reflexivity|].
  destruct (filter_ x); intros H.
  - rewrite (H x eq_refl). reflexivity.
  - rewrite (IH H). reflexivity.
Qed.

(** X5. [clear_cart] is idempotent: clearing again returns the same cart and
    leaves the database as the first clearing left it. *)
Theorem clear_cart_idempotent (user_id : string) (db : Database)
  (c : CartResponse.t) (db1 : Database) :
  clear_cart user_id db = (Return c, db1) ->
  clear_cart user_id db1 = (Return c, db1).
Proof.
  intros H.
  assert (Hd : exists d, find_one (cart_of_user user_id) (cart db1) = Some d
                         /\ c = cart_response d /\ CartDoc.items d = []).
  { rewrite clear_cart_run in H.
    destruct (find_one (cart_of_user user_id) (cart db)) as [d0|] eqn:E;
      inversion H; subst; clear H; eexists; (split; [|split; reflexivity]);
      simpl.
    - rewrite find_one_update_one by (intros; apply cart_of_user_set_items).
      rewrite E. reflexivity.
    - apply find_one_inserted; [exact E | apply cart_of_user_fresh]. }
  destruct Hd as (d & Hfind & -> & Hitems).
  rewrite clear_cart_run, Hfind.
  assert (Hsame : CartDoc.set_items [] d = d).
  { destruct d; simpl in *; subst; reflexivity. }
  rewrite Hsame. rewrite update_one_fixed, with_cart_same; [reflexivity|].
  intros d' Hd'. rewrite Hfind in Hd'. inversion Hd'; subst. exact Hsame.
Qed.

(** X6. One cart per user is an invariant of the four handlers that write
    carts: when no two cart documents share a [user_id], none do after
    [get_cart], [add_to_cart], [clear_cart] or [place_order], whatever they
    return. *)
Theorem cart_handlers_keep_unique_carts (db : Database) :
  unique_carts db ->
  (forall u, unique_carts (after (get_cart u) db))
  /\ (forall u item, unique_carts (after (add_to_cart u item) db))
  /\ (forall u, unique_carts (after (clear_cart u) db))
  /\ (forall o, unique_carts (after (place_order o) db)).
Proof.
  unfold unique_carts. intros H. repeat split; intros.
  - exact (cart_step_unique _ _ _ (get_cart_step u db) H).
  - exact (cart_step_unique _ _ _ (add_to_cart_step u item db) H).
  - exact (cart_step_unique _ _ _ (clear_cart_step u db) H).
  - exact (cart_step_unique _ _ _ (place_order_step o db) H).
Qed.

(** X7. The handlers called for one user never touch the cart of another:
    the cart document [find_one] sees for any other user is the same before
    and after [get_cart], [add_to_cart], [clear_cart] and [place_order]. *)
Theorem cart_handlers_leave_other_users (u v : string) (db : Database) :
  v <> u ->
  find_one (cart_of_user v) (cart (after (get_cart u) db))
  = find_one (cart_of_user v) (cart db)
  /\ (forall item,
        find_one (cart_of_user v) (cart (after (add_to_cart u item) db))
        = find_one (cart_of_user v) (cart db))
  /\ find_one (cart_of_user v) (cart (after (clear_cart u) db))
     = find_one (cart_of_user v) (cart db)
  /\ (forall o, Order.user_id o = u ->
        find_one (cart_of_user v) (cart (after (place_order o) db))
        = find_one (cart_of_user v) (cart db)).
Proof.
  intros Hv. repeat split; intros.
  - exact (cart_step_other _ _ _ _ (get_cart_step u db) Hv).
  - exact (cart_step_other _ _ _ _ (add_to_cart_step u item db) Hv).
  - exact (cart_step_other _ _ _ _ (clear_cart_step u db) Hv).
  - subst u. exact (cart_step_other _ _ _ _ (place_order_step o db) Hv).
Qed.

(** X8. A cart keeps its id: once a user has a cart document, the cart
    stored for the user after [add_to_cart], [clear_cart] or [place_order]
    has the same [_id], whatever the handler returned. *)
Theorem cart_id_is_stable (u : string) (db : Database) (d : CartDoc.t) :
  find_one (cart_of_user u) (cart db) = Some d ->
  (forall item, exists d1,
      find_one (cart_of_user u) (cart (after (add_to_cart u item) db)) = Some d1
      /\ CartDoc._id d1 = CartDoc._id d)
  /\ (exists d1,
        find_one (cart_of_user u) (cart (after (clear_cart u) db)) = Some d1
        /\ CartDoc._id d1 = CartDoc._id d)
  /\ (forall o, Order.user_id o = u -> exists d1,
        find_one (cart_of_user u) (cart (after (place_order o) db)) = Some d1
        /\ CartDoc._id d1 = CartDoc._id d).
Proof.
  intros H. repeat split; intros.
  - exact (cart_step_keeps_id _ _ _ _ (add_to_cart_step u item db) H).
  - exact (cart_step_keeps_id _ _ _ _ (clear_cart_step u db) H).
  - subst u. exact (cart_step_keeps_id _ _ _ _ (place_order_step o db) H).
Qed.

(** X9. The two ways a first cart comes to be leave different documents.
    For a user without a cart document, [get_cart] appends to the cart
    collection, and returns, a document with no items and with the keys
    [created_at] and [updated_at] set to [None]; a successful [add_to_cart]
    appends, and returns, a document that holds only the added item and
    has neither key, and a [get_cart] after it returns that document as it
    is, writing nothing. *)
Theorem first_cart_shape (user_id : string) (db : Database) :
  find_one (cart_of_user user_id) (cart db) = None ->
  (exists c db1,
     get_cart user_id db = (Return c, db1)
     /\ cart db1
        = cart db
          ++ [CartDoc.mk (next_oid db) user_id [] (Some None) (Some None)]
     /\ c = cart_response
              (CartDoc.mk (next_oid db) user_id [] (Some None) (Some None))
     /\ CartResponse.created_at c = Some None
     /\ CartResponse.updated_at c = Some None)
  /\ (forall item c db1,
        add_to_cart user_id item db = (Return c, db1) ->
        cart db1
        = cart db ++ [CartDoc.mk (next_oid db) user_id [item] None None]
        /\ c = cart_response
                 (CartDoc.mk (next_oid db) user_id [item] None None)
        /\ CartResponse.created_at c = None
        /\ CartResponse.updated_at c = None
        /\ CartResponse.items c = [item]
        /\ get_cart user_id db1 = (Return c, db1)).
Proof.
  intros Hnone. split.
  - rewrite get_cart_run, Hnone. do 2 eexists. repeat split.
  - intros item c db1. rewrite add_to_cart_run, Hnone.
    destruct (CartItem.quantity item <? 1); [discriminate|].
    destruct (ObjectId.parse (CartItem.menu_item_id item)) as [mid|];
      [|discriminate].
    destruct (find_one (has_id mid) (menuitem db)); [|discriminate].
    destruct (bson_int (CartItem.quantity item)); [|discriminate].
    intros H. inversion H; subst; clear H. repeat split.
    apply get_cart_found. simpl.
    apply find_one_inserted; [exact Hnone | apply cart_of_user_fresh].
Qed.

Lemma update_one_length {A} (filter_ : A -> bool) (update : A -> A)
  (l : list A) :
  List.length (update_one filter_ update l) = List.length l.
Proof.
  induction l as [|d l IH]; simpl; [reflexivity|].
  destruct (filter_ d); simpl; [reflexivity | now rewrite IH].
Qed.

(** X10. [place_order] never creates a cart: the number of cart documents
    is the same after it, and a user who had no cart document has none
    afterwards (unlike after [clear_cart], which inserts one). *)
Theorem place_order_creates_no_cart (o : Order.t) (db : Database)
  (p : Placed) (db1 : Database) :
  place_order o db = (Return p, db1) ->
  List.length (cart db1) = List.length (cart db)
  /\ (find_one (cart_of_user (Order.user_id o)) (cart db) = None ->
      cart db1 = cart db
      /\ find_one (cart_of_user (Order.user_id o)) (cart db1) = None
      /\ exists d,
           cart (after (clear_cart (Order.user_id o)) db) = cart db ++ [d]).
Proof.
  rewrite place_order_run.
  destruct (ObjectId.parse (Order.restaurant_id o)); [|discriminate].
  destruct (forallb bson_int (map CartItem.quantity (Order.items o)));
    [|discriminate].
  intros H. inversion H; subst; clear H. simpl. split.
  - apply update_one_length.
  - intros Hnone. rewrite (update_one_none _ _ _ Hnone).
    split; [reflexivity|]. split; [exact Hnone|].
    unfold after. rewrite clear_cart_run, Hnone. simpl. eauto.
Qed.

(** ** Seeding *)

Lemma seed_sample_data_run (db : Database) :
  seed_sample_data db =
  if 0 <? count_documents (restaurant db) then
    (Return (mkSeeded "ok" "Data already exists"), db)
  else
    let n := next_oid db in
    let at_ (k : N) {A} (record : A) :=
      mkDocument (n + k)%N record (Some (clock db)) in
    (Return (mkSeeded "ok" "Seeded"),
     mkDatabase
       (restaurant db ++ [at_ 0%N seed_r1; at_ 1%N seed_r2])
       (menuitem db
        ++ map (fun kd => at_ (fst kd) (snd kd))
             (combine [2; 3; 4; 5]%N
                (seed_items (ObjectId.str n) (ObjectId.str (n + 1)%N))))
       (cart db) (order db) (n + 6)%N (clock db)).
Proof.
  unfold seed_sample_data, bind at 1. unfold gets at 1.
  destruct (0 <? count_documents (restaurant db)); [reflexivity|].
  destruct db as [rs ms cs os n clk].
  unfold bind, create_document, new_object_id, gets, modify, ret, seed_items,
    for_each.
  cbn -[ObjectId.str seed_r1 seed_r2 N.add].
  rewrite <- !app_assoc. cbn [app].
  rewrite N.add_0_r.
  replace (n + 1 + 1)%N with (n + 2)%N by lia.
  replace (n + 2 + 1)%N with (n + 3)%N by lia.
  replace (n + 3 + 1)%N with (n + 4)%N by lia.
  replace (n + 4 + 1)%N with (n + 5)%N by lia.
  replace (n + 5 + 1)%N with (n + 6)%N by lia.
  reflexivity.
Qed.

Lemma count_documents_positive {A} (l : list A) :
  l <> [] -> (0 <? count_documents l) = true.
Proof.
  intros H. apply Z.ltb_lt. unfold count_documents.
  destruct l; [congruence | simpl; lia].
Qed.

(** X11. Seeding a store without restaurants stores the two sample
    restaurants and appends the four sample dishes; every dish carries the
    id string of one of the two restaurants, so it names a stored
    restaurant the way [create_menu_item] would check it.  Carts and orders
    are not touched.  (The ids are 12-byte values.) *)
Theorem seed_fills_empty_catalog (db : Database) :
  restaurant db = [] ->
  (next_oid db + 1 < oid_count)%N ->
  exists db1,
    seed_sample_data db = (Return (mkSeeded "ok" "Seeded"), db1)
    /\ map data (restaurant db1) = [seed_r1; seed_r2]
    /\ (exists new,
          menuitem db1 = menuitem db ++ new
          /\ map data new
             = seed_items (ObjectId.str (next_oid db))
                 (ObjectId.str (next_oid db + 1)%N)
          /\ forall d, In d new -> restaurant_on_file db1 (data d))
    /\ cart db1 = cart db
    /\ order db1 = order db.
Proof.
  intros Hempty Hbound.
  rewrite seed_sample_data_run, Hempty. cbn [count_documents List.length].
  cbn [Z.of_nat Z.ltb Z.compare].
  eexists. split; [reflexivity|]. cbn [restaurant menuitem cart order].
  split; [reflexivity|]. split; [|split; reflexivity].
  eexists. split; [reflexivity|]. split; [reflexivity|].
  assert (H1 : ObjectId.parse (ObjectId.str (next_oid db)) = Some (next_oid db))
    by (apply parse_str; lia).
  assert (H2 : ObjectId.parse (ObjectId.str (next_oid db + 1)%N)
               = Some (next_oid db + 1)%N)
    by (apply parse_str; lia).
  assert (R1 : exists r,
             find_one (has_id (next_oid db))
               ([mkDocument (next_oid db + 0)%N seed_r1 (Some (clock db));
                 mkDocument (next_oid db + 1)%N seed_r2 (Some (clock db))])
             = Some r).
  { unfold find_one, has_id, ObjectId.eqb. cbn [find _id].
    rewrite N.add_0_r, N.eqb_refl. eauto. }
  assert (R2 : exists r,
             find_one (has_id (next_oid db + 1)%N)
               ([mkDocument (next_oid db + 0)%N seed_r1 (Some (clock db));
                 mkDocument (next_oid db + 1)%N seed_r2 (Some (clock db))])
             = Some r).
  { unfold find_one, has_id, ObjectId.eqb. cbn [find _id].
    rewrite N.eqb_refl.
    destruct (next_oid db + 0 =? next_oid db + 1)%N; eauto. }
  destruct R1 as (r1 & R1), R2 as (r2 & R2).
  intros d Hin. cbn [app] in R1, R2 |- *.
  unfold seed_items in Hin. cbn [combine map fst snd] in Hin.
  destruct Hin as [<- | [<- | [<- | [<- | []]]]]; unfold restaurant_on_file;
    cbn [data MenuItem.restaurant_id]; eauto.
Qed.

(** X12. Seeding never adds to a store that has restaurants: there it
    answers "Data already exists" and leaves the database as it was.  Hence
    seeding twice is seeding once: on any store, a second seeding right
    after the first changes nothing. *)
Theorem seed_is_idempotent (db : Database) :
  (restaurant db <> [] ->
   seed_sample_data db = (Return (mkSeeded "ok" "Data already exists"), db))
  /\ seed_sample_data (after seed_sample_data db)
     = (Return (mkSeeded "ok" "Data already exists"),
        after seed_sample_data db).
Proof.
  split.
  - intros H. rewrite seed_sample_data_run, (count_documents_positive _ H).
    reflexivity.
  - unfold after. rewrite (seed_sample_data_run db).
    destruct (0 <? count_documents (restaurant db)) eqn:E; cbn [snd].
    + rewrite seed_sample_data_run, E. reflexivity.
    + rewrite seed_sample_data_run. cbv zeta. cbn [restaurant].
      rewrite count_documents_positive; [reflexivity|].
      intros Hnil. apply app_eq_nil in Hnil. destruct Hnil. discriminate.
Qed.

(** ** The catalog and the menu *)

Lemma create_restaurant_run (r : Restaurant.t) (db : Database) :
  create_restaurant r db =
  (Return (mkCreated (ObjectId.str (next_oid db))),
   with_restaurant
     (restaurant db ++ [mkDocument (next_oid db) r (Some (clock db))])
     (with_next_oid (next_oid db + 1)%N db)).
Proof. reflexivity. Qed.

Lemma create_menu_item_run (item : MenuItem.t) (db : Database) :
  create_menu_item item db =
  match ObjectId.parse (MenuItem.restaurant_id item) with
  | None => (Raise (mkHTTPException 400 "Invalid id format"), db)
  | Some rid =>
      match find_one (has_id rid) (restaurant db) with
      | None => (Raise (mkHTTPException 404 "Restaurant not found"), db)
      | Some _ =>
          (Return (mkCreated (ObjectId.str (next_oid db))),
           with_menuitem
             (menuitem db ++ [mkDocument (next_oid db) item (Some (clock db))])
             (with_next_oid (next_oid db + 1)%N db))
      end
  end.
Proof.
  unfold create_menu_item, to_object_id.
  destruct (ObjectId.parse (MenuItem.restaurant_id item)) as [rid|];
    [|reflexivity].
  unfold bind at 1. unfold ret at 1. unfold bind at 1. unfold gets at 1.
  destruct (find_one (has_id rid) (restaurant db)); reflexivity.
Qed.

Lemma get_menu_for_restaurant_run (restaurant_id : string) (db : Database) :
  get_menu_for_restaurant restaurant_id db =
  match ObjectId.parse restaurant_id with
  | None => (Raise (mkHTTPException 400 "Invalid id format"), db)
  | Some _ => (Return (menu_under restaurant_id db), db)
  end.
Proof.
  unfold get_menu_for_restaurant, to_object_id.
  destruct (ObjectId.parse restaurant_id); reflexivity.
Qed.

Lemma find_one_app_some {A} (filter_ : A -> bool) (l : list A) (d : A) :
  filter_ d = true -> exists d1, find_one filter_ (l ++ [d]) = Some d1.
Proof.
  intros H. rewrite find_one_app.
  destruct (find_one filter_ l); [eauto|].
  unfold find_one. simpl. rewrite H. eauto.
Qed.

(** X13. [get_menu_for_restaurant] refuses an id that the [ObjectId]
    constructor rejects with status 400.
    On a well-formed id it never fails and never writes, whether or not a
    restaurant has that id: it lists the stored dishes whose
    [restaurant_id] is that very string and no others, so an id that no
    dish carries yields the empty list. *)
Theorem get_menu_for_restaurant_lists_by_id (restaurant_id : string)
  (db : Database) :
  (ObjectId.parse restaurant_id = None ->
   get_menu_for_restaurant restaurant_id db
   = (Raise (mkHTTPException 400 "Invalid id format"), db))
  /\ (ObjectId.parse restaurant_id <> None ->
      exists l,
        get_menu_for_restaurant restaurant_id db = (Return l, db)
        /\ (forall x,
              In x l <->
              exists d, In d (menuitem db)
                        /\ MenuItem.restaurant_id (data d) = restaurant_id
                        /\ x = listed d)
        /\ ((forall d, In d (menuitem db) ->
                       MenuItem.restaurant_id (data d) <> restaurant_id) ->
            l = [])).
Proof.
  rewrite get_menu_for_restaurant_run.
  destruct (ObjectId.parse restaurant_id) as [rid|].
  - split; [discriminate|]. intros _.
    exists (menu_under restaurant_id db). split; [reflexivity|]. split.
    + intros x. unfold menu_under. rewrite in_map_iff. split.
      * intros (d & Hx & Hin). apply filter_In in Hin.
        destruct Hin as [Hin Hs]. apply String.eqb_eq in Hs.
        exists d. auto.
      * intros (d & Hin & Hs & ->). exists d. split; [reflexivity|].
        apply filter_In. split; [exact Hin|]. apply String.eqb_eq. exact Hs.
    + intros Hno. unfold menu_under.
      induction (menuitem db) as [|d l IH]; [reflexivity|]. simpl.
      destruct (String.eqb_spec (MenuItem.restaurant_id (data d)) restaurant_id)
        as [Heq|_].
      * exfalso. apply (Hno d); [left; reflexivity | exact Heq].
      * apply IH. intros d' Hin. apply Hno. right. exact Hin.
  - split; [reflexivity|]. congruence.
Qed.

(** X14. A dish that [create_menu_item] accepted is on the menu of its
    restaurant: listing the menu under the dish's [restaurant_id] right
    after gives the menu as it was, followed by the new dish under the id
    the creation returned. *)
Theorem created_menu_item_is_listed (item : MenuItem.t) (db : Database)
  (c : Created) (db1 : Database) :
  create_menu_item item db = (Return c, db1) ->
  get_menu_for_restaurant (MenuItem.restaurant_id item) db1
  = (Return
       (menu_under (MenuItem.restaurant_id item) db
        ++ [Listed.mk (created_id c) item (Some (clock db))]),
     db1).
Proof.
  rewrite create_menu_item_run, get_menu_for_restaurant_run.
  destruct (ObjectId.parse (MenuItem.restaurant_id item)) as [rid|];
    [|discriminate].
  destruct (find_one (has_id rid) (restaurant db)); [|discriminate].
  intros H. inversion H; subst; clear H.
  unfold menu_under. simpl. rewrite filter_app, map_app. simpl.
  rewrite String.eqb_refl. reflexivity.
Qed.

(** X15. The menu is keyed by the id string, not by the identifier it
    spells: a dish created under one string is not listed under any other
    string, even one that spells the same [ObjectId] in another letter
    case and that [create_menu_item] would resolve to the same
    restaurant. *)
Theorem menu_is_keyed_by_id_string (item : MenuItem.t) (db : Database)
  (c : Created) (db1 : Database) (other : string) :
  create_menu_item item db = (Return c, db1) ->
  other <> MenuItem.restaurant_id item ->
  menu_under other db1 = menu_under other db
  /\ get_menu_for_restaurant other db1
     = (fst (get_menu_for_restaurant other db), db1).
Proof.
  rewrite create_menu_item_run.
  destruct (ObjectId.parse (MenuItem.restaurant_id item)) as [rid|];
    [|discriminate].
  destruct (find_one (has_id rid) (restaurant db)); [|discriminate].
  intros H Hother. inversion H; subst; clear H.
  assert (Hsame : menu_under other
                    (with_menuitem
                       (menuitem db
                        ++ [mkDocument (next_oid db) item (Some (clock db))])
                       (with_next_oid (next_oid db + 1)%N db))
                  = menu_under other db).
  { unfold menu_under. simpl. rewrite filter_app, map_app. simpl.
    destruct (String.eqb_spec (MenuItem.restaurant_id item) other) as [E|_].
    - congruence.
    - apply app_nil_r. }
  split; [exact Hsame|].
  rewrite !get_menu_for_restaurant_run.
  destruct (ObjectId.parse other); [|reflexivity].
  rewrite Hsame. reflexivity.
Qed.

(** X16. The id [create_restaurant] returns is accepted by
    [create_menu_item]: a dish carrying it is stored, neither 400 nor 404
    is raised.  (The id generated is a 12-byte value.) *)
Theorem created_restaurant_takes_menu_items (r : Restaurant.t)
  (item : MenuItem.t) (db : Database) (c : Created) (db1 : Database) :
  (next_oid db < oid_count)%N ->
  create_restaurant r db = (Return c, db1) ->
  MenuItem.restaurant_id item = created_id c ->
  exists c1 db2,
    create_menu_item item db1 = (Return c1, db2)
    /\ menuitem db2
       = menuitem db1 ++ [mkDocument (next_oid db1) item (Some (clock db1))].
Proof.
  intros Hbound Hcreate Hid.
  rewrite create_restaurant_run in Hcreate.
  inversion Hcreate; subst c db1; clear Hcreate. simpl in Hid.
  rewrite create_menu_item_run, Hid, (parse_str _ Hbound).
  cbn [restaurant with_restaurant with_next_oid].
  destruct (find_one_app_some (has_id (next_oid db)) (restaurant db)
              (mkDocument (next_oid db) r (Some (clock db)))) as (d1 & ->).
  - unfold has_id, ObjectId.eqb. simpl. apply N.eqb_refl.
  - do 2 eexists. split; reflexivity.
Qed.

(** X17. The id [create_menu_item] returns is accepted by [add_to_cart]:
    an item carrying it, of a quantity that is at least 1 and fits in 8
    bytes, is appended to the user's cart.  (The id generated is a 12-byte
    value.) *)
Theorem created_menu_item_can_be_added (mi : MenuItem.t) (db : Database)
  (c : Created) (db1 : Database) (user_id : string) (item : CartItem.t) :
  (next_oid db < oid_count)%N ->
  create_menu_item mi db = (Return c, db1) ->
  1 <= CartItem.quantity item ->
  CartItem.quantity item < 2 ^ 63 ->
  CartItem.menu_item_id item = created_id c ->
  exists resp db2,
    add_to_cart user_id item db1 = (Return resp, db2)
    /\ CartResponse.items resp = cart_items user_id db1 ++ [item].
Proof.
  intros Hbound Hcreate Hq Hfit Hid.
  rewrite create_menu_item_run in Hcreate.
  destruct (ObjectId.parse (MenuItem.restaurant_id mi)) as [rid|];
    [|discriminate].
  destruct (find_one (has_id rid) (restaurant db)); [|discriminate].
  inversion Hcreate; subst c db1; clear Hcreate. simpl in Hid.
  destruct (find_one_app_some (has_id (next_oid db)) (menuitem db)
              (mkDocument (next_oid db) mi (Some (clock db)))) as (d1 & Hd1).
  { unfold has_id, ObjectId.eqb. simpl. apply N.eqb_refl. }
  destruct (add_to_cart_success user_id item
              (with_menuitem
                 (menuitem db ++ [mkDocument (next_oid db) mi (Some (clock db))])
                 (with_next_oid (next_oid db + 1)%N db))
              (next_oid db) d1 Hq Hfit)
    as (cd & db2 & Hadd & _ & Hitems & _).
  - rewrite Hid. apply parse_str. exact Hbound.
  - exact Hd1.
  - exists (cart_response cd), db2. split; [exact Hadd | exact Hitems].
Qed.

(** X18. An order that [place_order] accepted is in the history of its
    user: [list_orders] right after it lists the order under the returned
    id with the submitted fields. *)
Theorem placed_order_is_listed (o : Order.t) (db : Database) (p : Placed)
  (db1 : Database) :
  place_order o db = (Return p, db1) ->
  exists docs,
    list_orders (Order.user_id o) db1 = (Return docs, db1)
    /\ In (Listed.mk (placed_id p) o (Some (clock db))) docs.
Proof.
  rewrite place_order_run.
  destruct (ObjectId.parse (Order.restaurant_id o)); [|discriminate].
  destruct (forallb bson_int (map CartItem.quantity (Order.items o)));
    [|discriminate].
  intros H. inversion H; subst; clear H.
  eexists. split; [reflexivity|].
  apply in_map_iff.
  exists (mkDocument (next_oid db) o (Some (clock db))).
  split; [reflexivity|].
  apply (Permutation_in _ (Permutation_sym (sort_desc_perm _))).
  apply filter_In. split.
  - simpl. apply in_or_app. right. left. reflexivity.
  - unfold order_of_user. simpl. apply String.eqb_refl.
Qed.

(** ** Further worked instances *)

Lemma to_object_id_round_trip_witness :
  (255 < oid_count)%N
  /\ to_object_id (ObjectId.str 255%N) seeded_db = (Return 255%N, seeded_db).
Proof.
  split; [reflexivity|].
  apply (to_object_id_round_trip 255%N seeded_db). reflexivity.
Defined.

Lemma add_to_cart_malformed_id_witness :
  1 <= CartItem.quantity (CartItem.mk "r" "margherita" "Pizza" 12.5%float 1)
  /\ ObjectId.parse
       (CartItem.menu_item_id (CartItem.mk "r" "margherita" "Pizza" 12.5%float 1))
     = None
  /\ add_to_cart "u1" (CartItem.mk "r" "margherita" "Pizza" 12.5%float 1) cart_db
     = (Raise (mkHTTPException 400 "Invalid id format"), cart_db).
Proof.
  split; [simpl; lia|]. split; [reflexivity|].
  apply (add_to_cart_malformed_id "u1"
           (CartItem.mk "r" "margherita" "Pizza" 12.5%float 1) cart_db);
    [simpl; lia | reflexivity].
Defined.

Lemma add_to_cart_failure_writes_nothing_witness :
  add_to_cart "u1" (unlisted_item 1) cart_db
  = (Raise (mkHTTPException 404 "Menu item not found"), cart_db)
  /\ add_to_cart "u1" (margherita_item (2 ^ 63)) cart_db
     = (Unhandled OverflowError, cart_db)
  /\ (cart_db = cart_db
      /\ (mkHTTPException 404 "Menu item not found"
          = mkHTTPException 400 "Quantity must be at least 1"
          \/ mkHTTPException 404 "Menu item not found"
             = mkHTTPException 400 "Invalid id format"
          \/ mkHTTPException 404 "Menu item not found"
             = mkHTTPException 404 "Menu item not found"))
  /\ (cart_db = cart_db
      /\ OverflowError = OverflowError
      /\ 2 ^ 63 <= CartItem.quantity (margherita_item (2 ^ 63))).
Proof.
  split; [reflexivity|]. split; [reflexivity|]. split.
  - apply (proj1 (add_to_cart_failure_writes_nothing "u1" (unlisted_item 1)
                    cart_db)).
    reflexivity.
  - apply (proj2 (add_to_cart_failure_writes_nothing "u1"
                    (margherita_item (2 ^ 63)) cart_db)).
    reflexivity.
Defined.

Lemma get_cart_after_write_witness :
  add_to_cart "u2" (margherita_item 1) cart_db
  = (Return (CartResponse.mk "u2" [margherita_item 1] None None
               "000000000000000000000004"),
     two_carts_db)
  /\ get_cart "u2" two_carts_db
     = (Return (CartResponse.mk "u2" [margherita_item 1] None None
                  "000000000000000000000004"),
        two_carts_db).
Proof.
  split; [reflexivity|].
  apply (proj1 (get_cart_after_write "u2" cart_db _ two_carts_db)
           (margherita_item 1)).
  reflexivity.
Defined.

Lemma clear_cart_idempotent_witness :
  clear_cart "u1" cart_db
  = (Return (CartResponse.mk "u1" [] None None "000000000000000000000003"),
     after (clear_cart "u1") cart_db)
  /\ clear_cart "u1" (after (clear_cart "u1") cart_db)
     = (Return (CartResponse.mk "u1" [] None None "000000000000000000000003"),
        after (clear_cart "u1") cart_db).
Proof.
  split; [reflexivity|].
  apply (clear_cart_idempotent "u1" cart_db). reflexivity.
Defined.

Lemma cart_handlers_keep_unique_carts_witness :
  unique_carts two_carts_db
  /\ unique_carts (after (get_cart "u3") two_carts_db)
  /\ unique_carts (after (add_to_cart "u1" (margherita_item 1)) two_carts_db)
  /\ unique_carts (after (clear_cart "u3") two_carts_db)
  /\ unique_carts (after (place_order pizza_order) two_carts_db).
Proof.
  assert (H : unique_carts two_carts_db).
  { unfold unique_carts. vm_compute.
    repeat constructor; simpl; intuition discriminate. }
  split; [exact H|].
  destruct (cart_handlers_keep_unique_carts two_carts_db H)
    as (Hget & Hadd & Hclear & Hplace).
  repeat split;
    [apply Hget | apply Hadd | apply Hclear | apply Hplace].
Defined.

Lemma cart_handlers_leave_other_users_witness :
  "u2" <> "u1"
  /\ cart_items "u2" two_carts_db = [margherita_item 1]
  /\ find_one (cart_of_user "u2") (cart (after (clear_cart "u1") two_carts_db))
     = find_one (cart_of_user "u2") (cart two_carts_db)
  /\ find_one (cart_of_user "u2")
       (cart (after (place_order pizza_order) two_carts_db))
     = find_one (cart_of_user "u2") (cart two_carts_db).
Proof.
  assert (H : "u2" <> "u1") by discriminate.
  split; [exact H|]. split; [reflexivity|].
  destruct (cart_handlers_leave_other_users "u1" "u2" two_carts_db H)
    as (_ & _ & Hclear & Hplace).
  split; [exact Hclear | apply Hplace; reflexivity].
Defined.

Lemma cart_id_is_stable_witness :
  find_one (cart_of_user "u1") (cart cart_db)
  = Some (CartDoc.mk 3%N "u1" [margherita_item 2] None None)
  /\ exists d1,
       find_one (cart_of_user "u1") (cart (after (clear_cart "u1") cart_db))
       = Some d1
       /\ CartDoc._id d1
          = CartDoc._id (CartDoc.mk 3%N "u1" [margherita_item 2] None None).
Proof.
  split; [reflexivity|].
  apply (cart_id_is_stable "u1" cart_db
           (CartDoc.mk 3%N "u1" [margherita_item 2] None None)).
  reflexivity.
Defined.

Lemma first_cart_shape_witness :
  find_one (cart_of_user "u1") (cart seeded_db) = None
  /\ (exists c db1,
        get_cart "u1" seeded_db = (Return c, db1)
        /\ cart db1 = [CartDoc.mk 3%N "u1" [] (Some None) (Some None)]
        /\ CartResponse.created_at c = Some None)
  /\ add_to_cart "u1" (margherita_item 2) seeded_db
     = (Return (CartResponse.mk "u1" [margherita_item 2] None None
                  "000000000000000000000003"),
        cart_db)
  /\ cart cart_db = [CartDoc.mk 3%N "u1" [margherita_item 2] None None]
  /\ CartResponse.created_at
       (CartResponse.mk "u1" [margherita_item 2] None None
          "000000000000000000000003") = None.
Proof.
  split; [reflexivity|].
  destruct (first_cart_shape "u1" seeded_db eq_refl) as [Hget Hadd].
  split.
  - destruct Hget as (c & db1 & Hrun & Hcart & _ & Hcreated & _).
    exists c, db1. repeat split; assumption.
  - split; [reflexivity|].
    destruct (Hadd (margherita_item 2) _ cart_db eq_refl)
      as (Hcart & _ & Hcreated & _).
    split; [exact Hcart | exact Hcreated].
Defined.

Lemma place_order_creates_no_cart_witness :
  place_order pizza_order seeded_db
  = (Return (mkPlaced "000000000000000000000003" "placed"),
     after (place_order pizza_order) seeded_db)
  /\ List.length (cart (after (place_order pizza_order) seeded_db))
     = List.length (cart seeded_db)
  /\ cart (after (place_order pizza_order) seeded_db) = [].
Proof.
  split; [reflexivity|].
  destruct (place_order_creates_no_cart pizza_order seeded_db
              (mkPlaced "000000000000000000000003" "placed")
              (after (place_order pizza_order) seeded_db) eq_refl)
    as [Hlen Hnone].
  split; [exact Hlen|].
  apply (proj1 (Hnone eq_refl)).
Defined.

Lemma seed_fills_empty_catalog_witness :
  restaurant empty_db = []
  /\ (next_oid empty_db + 1 < oid_count)%N
  /\ exists db1,
       seed_sample_data empty_db = (Return (mkSeeded "ok" "Seeded"), db1)
       /\ map data (restaurant db1) = [seed_r1; seed_r2]
       /\ (exists new,
             menuitem db1 = menuitem empty_db ++ new
             /\ map data new
                = seed_items (ObjectId.str (next_oid empty_db))
                    (ObjectId.str (next_oid empty_db + 1)%N)
             /\ forall d, In d new -> restaurant_on_file db1 (data d))
       /\ cart db1 = cart empty_db
       /\ order db1 = order empty_db.
Proof.
  split; [reflexivity|]. split; [reflexivity|].
  apply (seed_fills_empty_catalog empty_db); reflexivity.
Defined.

Lemma seed_is_idempotent_witness :
  restaurant seeded_db <> []
  /\ seed_sample_data seeded_db
     = (Return (mkSeeded "ok" "Data already exists"), seeded_db)
  /\ seed_sample_data (after seed_sample_data empty_db)
     = (Return (mkSeeded "ok" "Data already exists"),
        after seed_sample_data empty_db).
Proof.
  assert (H : restaurant seeded_db <> []) by (simpl; discriminate).
  split; [exact H|]. split.
  - apply (proj1 (seed_is_idempotent seeded_db) H).
  - apply (proj2 (seed_is_idempotent empty_db)).
Defined.

Lemma get_menu_for_restaurant_lists_by_id_witness :
  ObjectId.parse "pizzeria" = None
  /\ get_menu_for_restaurant "pizzeria" seeded_db
     = (Raise (mkHTTPException 400 "Invalid id format"), seeded_db)
  /\ ObjectId.parse "0000000000000000000000ff" <> None
  /\ exists l,
       get_menu_for_restaurant "0000000000000000000000ff" seeded_db
       = (Return l, seeded_db)
       /\ l = [].
Proof.
  split; [reflexivity|]. split.
  - apply (proj1 (get_menu_for_restaurant_lists_by_id "pizzeria" seeded_db)).
    reflexivity.
  - assert (H : ObjectId.parse "0000000000000000000000ff" <> None)
      by (vm_compute; discriminate).
    split; [exact H|].
    destruct (proj2 (get_menu_for_restaurant_lists_by_id
                       "0000000000000000000000ff" seeded_db) H)
      as (l & Hget & _ & Hempty).
    exists l. split; [exact Hget|]. apply Hempty.
    intros d [<- | []]. simpl. discriminate.
Defined.

Lemma created_menu_item_is_listed_witness :
  create_menu_item (dish_of "000000000000000000000001") seeded_db
  = (Return (mkCreated "000000000000000000000003"),
     after (create_menu_item (dish_of "000000000000000000000001")) seeded_db)
  /\ get_menu_for_restaurant "000000000000000000000001"
       (after (create_menu_item (dish_of "000000000000000000000001")) seeded_db)
     = (Return
          [Listed.mk "000000000000000000000002" margherita (Some 1000);
           Listed.mk "000000000000000000000003"
             (dish_of "000000000000000000000001") (Some 1000)],
        after (create_menu_item (dish_of "000000000000000000000001")) seeded_db).
Proof.
  split; [reflexivity|].
  apply (created_menu_item_is_listed (dish_of "000000000000000000000001")
           seeded_db (mkCreated "000000000000000000000003")).
  reflexivity.
Defined.

Lemma menu_is_keyed_by_id_string_witness :
  create_menu_item capitals_dish letters_db
  = (Return (mkCreated "000000000000000000000100"),
     after (create_menu_item capitals_dish) letters_db)
  /\ "0000000000000000000000ff" <> MenuItem.restaurant_id capitals_dish
  /\ ObjectId.parse "0000000000000000000000ff"
     = ObjectId.parse (MenuItem.restaurant_id capitals_dish)
  /\ ObjectId.str 255%N = "0000000000000000000000ff"
  /\ get_menu_for_restaurant "0000000000000000000000ff"
       (after (create_menu_item capitals_dish) letters_db)
     = (Return [], after (create_menu_item capitals_dish) letters_db).
Proof.
  assert (H : "0000000000000000000000ff" <> MenuItem.restaurant_id capitals_dish)
    by (simpl; discriminate).
  split; [reflexivity|]. split; [exact H|]. split; [reflexivity|].
  split; [reflexivity|].
  apply (proj2 (menu_is_keyed_by_id_string capitals_dish letters_db
                  (mkCreated "000000000000000000000100")
                  (after (create_menu_item capitals_dish) letters_db)
                  "0000000000000000000000ff" eq_refl H)).
Defined.

Lemma created_restaurant_takes_menu_items_witness :
  (next_oid empty_db < oid_count)%N
  /\ create_restaurant sunset_pizzeria empty_db
     = (Return (mkCreated "000000000000000000000001"),
        after (create_restaurant sunset_pizzeria) empty_db)
  /\ MenuItem.restaurant_id margherita
     = created_id (mkCreated "000000000000000000000001")
  /\ exists c1 db2,
       create_menu_item margherita
         (after (create_restaurant sunset_pizzeria) empty_db)
       = (Return c1, db2)
       /\ menuitem db2 = [mkDocument 2%N margherita (Some 1000)].
Proof.
  split; [reflexivity|]. split; [reflexivity|]. split; [reflexivity|].
  apply (created_restaurant_takes_menu_items sunset_pizzeria margherita
           empty_db (mkCreated "000000000000000000000001")
           (after (create_restaurant sunset_pizzeria) empty_db));
    reflexivity.
Defined.

Lemma created_menu_item_can_be_added_witness :
  (next_oid letters_db < oid_count)%N
  /\ create_menu_item capitals_dish letters_db
     = (Return (mkCreated "000000000000000000000100"),
        after (create_menu_item capitals_dish) letters_db)
  /\ exists resp db2,
       add_to_cart "u1"
         (CartItem.mk "0000000000000000000000FF" "000000000000000000000100"
            "Calzone" 9.5%float 3)
         (after (create_menu_item capitals_dish) letters_db)
       = (Return resp, db2)
       /\ CartResponse.items resp
          = cart_items "u1" (after (create_menu_item capitals_dish) letters_db)
            ++ [CartItem.mk "0000000000000000000000FF"
                  "000000000000000000000100" "Calzone" 9.5%float 3].
Proof.
  split; [reflexivity|]. split; [reflexivity|].
  apply (created_menu_item_can_be_added capitals_dish letters_db
           (mkCreated "000000000000000000000100")
           (after (create_menu_item capitals_dish) letters_db) "u1"
           (CartItem.mk "0000000000000000000000FF" "000000000000000000000100"
              "Calzone" 9.5%float 3));
    [reflexivity | reflexivity | simpl; lia | simpl; lia | reflexivity].
Defined.

Lemma placed_order_is_listed_witness :
  place_order pizza_order cart_db
  = (Return (mkPlaced "000000000000000000000004" "placed"), placed_db)
  /\ exists docs,
       list_orders "u1" placed_db = (Return docs, placed_db)
       /\ In (Listed.mk "000000000000000000000004" pizza_order (Some 1000)) docs.
Proof.
  split; [reflexivity|].
  apply (placed_order_is_listed pizza_order cart_db
           (mkPlaced "000000000000000000000004" "placed") placed_db).
  reflexivity.
Defined.
